(** * pywemo: the WeMo humidifier attribute decoder and device facade

    A shallow embedding of [pywemo/ouimeaux_device/humidifier.py]:
    the decoder [attribute_xml_to_dict], the cached snapshot kept by the
    [Humidifier] object, its typed accessors and its setters, followed by
    the properties of the specification checked against that code.

    Layout:
    - [Py]: the Python builtins the module calls ([str.replace], [int],
      [float], [round], [str], comparison with an integer), for CPython 3
      and ASCII text;
    - [ET]: the element trees of [xml.etree] and a small parser for the
      tag-and-text subset of XML, used to run the decoder on concrete blobs;
    - the decoder, then the device facade as a state-and-exception monad
      over the object's fields and the RPC collaborator;
    - the vocabulary of the statements and the data of the examples;
    - the lemmas and theorems, and their runs on concrete inputs. *)

From Stdlib Require Import ZArith String Ascii List Bool Lia Floats.
From Stdlib Require Import DecimalString DecimalPos.
From stdpp Require Import base option list gmap strings.

Local Open Scope string_scope.
Local Open Scope list_scope.
Local Open Scope Z_scope.

(** ** Exceptions and results *)

(** The exceptions that can leave the code of the module. [ParseError] is
    [xml.etree.ElementTree.ParseError]. *)
Inductive exn := ValueError | TypeError | IndexError | ParseError.

(** The outcome of an expression that may raise. *)
Inductive Res (A : Type) :=
  | Ok (a : A)
  | Raise (e : exn).
Arguments Ok {A} a.
Arguments Raise {A} e.

#[global] Instance exn_eq_dec : EqDecision exn.
Proof. solve_decision. Defined.

(** Sequencing: an exception of the first part leaves at once. *)
Definition bind {A B : Type} (r : Res A) (k : A -> Res B) : Res B :=
  match r with
  | Ok a => k a
  | Raise e => Raise e
  end.

Notation "'do' x <- r ;; k" := (bind r (fun x => k))
  (at level 10, x name, r at level 99, k at level 200,
   format "'do'  x  <-  r  ;;  '/' k").

(** ** Python builtins *)
Module Py.

(** [s.replace(old, new)] for a non-empty [old]: the occurrences of [old]
    are replaced from left to right, without overlap. [skip] counts the
    characters of a match that are still to be dropped. *)
Fixpoint replace_from (old new : string) (skip : nat) (s : string) : string :=
  match s with
  | EmptyString => EmptyString
  | String c rest =>
      match skip with
      | S k => replace_from old new k rest
      | O =>
          if String.prefix old s
          then new +:+ replace_from old new (String.length old - 1) rest
          else String c (replace_from old new O rest)
      end
  end.

Definition replace (s old new : string) : string := replace_from old new O s.

(** Characters that [int] and [float] skip around a number in ASCII text:
    tab, newline, vertical tab, form feed, carriage return and space. *)
Definition isspace (c : ascii) : bool :=
  let n := nat_of_ascii c in
  ((9 <=? n)%nat && (n <=? 13)%nat) || (n =? 32)%nat.

Definition isdigit (c : ascii) : bool :=
  let n := nat_of_ascii c in (48 <=? n)%nat && (n <=? 57)%nat.

Definition digit_val (c : ascii) : Z := Z.of_nat (nat_of_ascii c) - 48.

Fixpoint lstrip (s : list ascii) : list ascii :=
  match s with
  | c :: rest => if isspace c then lstrip rest else s
  | [] => []
  end.

Definition strip (s : list ascii) : list ascii :=
  rev (lstrip (rev (lstrip s))).

(** An optional sign: [true] for a minus. *)
Definition read_sign (s : list ascii) : bool * list ascii :=
  match s with
  | "-"%char :: rest => (true, rest)
  | "+"%char :: rest => (false, rest)
  | _ => (false, s)
  end.

(** The rest of a digit part [digit (["_"] digit)*], after its first digit:
    the digits read (most significant first, [acc] holding those read so
    far, reversed) and what follows them. An underscore is read only
    between two digits. *)
Fixpoint read_digits_from (acc : list Z) (s : list ascii) : list Z * list ascii :=
  match s with
  | c :: rest =>
      if isdigit c then read_digits_from (digit_val c :: acc) rest
      else match c, rest with
           | "_"%char, d :: rest' =>
               if isdigit d then read_digits_from (digit_val d :: acc) rest'
               else (rev acc, s)
           | _, _ => (rev acc, s)
           end
  | [] => (rev acc, [])
  end.

(** A digit part at the head of [s], or [None] when [s] does not start
    with a digit. *)
Definition read_digits (s : list ascii) : option (list Z * list ascii) :=
  match s with
  | c :: rest =>
      if isdigit c then Some (read_digits_from [digit_val c] rest) else None
  | [] => None
  end.

Definition digits_value (ds : list Z) : Z :=
  fold_left (fun n d => 10 * n + d) ds 0.

(** [int(text)] in base ten. [text] is [None] for Python's [None], which
    [int] refuses with a [TypeError]; a string that is not an integer
    literal is a [ValueError]. (The limit CPython 3.11 puts on the number
    of digits, 4300 by default, is not modelled.) *)
Definition int (text : option string) : Res Z :=
  match text with
  | None => Raise TypeError
  | Some s =>
      let '(neg, body) := read_sign (strip (list_ascii_of_string s)) in
      match read_digits body with
      | Some (ds, []) =>
          let n := digits_value ds in Ok (if neg then - n else n)
      | _ => Raise ValueError
      end
  end.

(** *** Floating point

    Python's [float] is the IEEE 754 binary64 format, as Rocq's primitive
    [float]. Text is converted with correct rounding, through the exact
    integer arithmetic of [SpecFloat]. *)

(** The binary64 number nearest to [m * 10^e] ([m >= 0]), negated when
    [neg]; ties go to the even mantissa. *)
Definition of_decimal (neg : bool) (m e : Z) : float :=
  match m with
  | Z0 => if neg then neg_zero else zero
  | Zpos p =>
      SF2Prim
        (if 0 <=? e
         then binary_normalize prec emax ((if neg then Zneg p else Zpos p) * 10 ^ e) 0 false
         else SFdiv prec emax (S754_finite neg p 0)
                (S754_finite false (Z.to_pos (10 ^ (- e))) 0))
  | Zneg _ => nan
  end.

Definition lower (c : ascii) : ascii :=
  let n := nat_of_ascii c in
  if (65 <=? n)%nat && (n <=? 90)%nat then ascii_of_nat (n + 32) else c.

(** The mantissa of a float literal: [digitpart ["." [digitpart]]] or
    ["." digitpart]. Returns the integer and fraction digits and the rest. *)
Definition read_mantissa (s : list ascii)
  : option (list Z * list Z * list ascii) :=
  match read_digits s with
  | Some (ip, "."%char :: rest) =>
      match read_digits rest with
      | Some (fp, rest') => Some (ip, fp, rest')
      | None => Some (ip, [], rest)
      end
  | Some (ip, rest) => Some (ip, [], rest)
  | None =>
      match s with
      | "."%char :: rest =>
          match read_digits rest with
          | Some (fp, rest') => Some ([], fp, rest')
          | None => None
          end
      | _ => None
      end
  end.

(** The exponent part [("e" | "E") [sign] digitpart] that ends a literal,
    or nothing at all; anything else is refused. *)
Definition read_exponent (s : list ascii) : option Z :=
  match s with
  | [] => Some 0
  | c :: rest =>
      if Ascii.eqb (lower c) "e"
      then let '(neg, body) := read_sign rest in
           match read_digits body with
           | Some (ds, []) =>
               let n := digits_value ds in Some (if neg then - n else n)
           | _ => None
           end
      else None
  end.

(** [float(text)]: [TypeError] on [None], [ValueError] on text that is not
    a float literal, [inf], [infinity] or [nan]. *)
Definition float (text : option string) : Res PrimFloat.float :=
  match text with
  | None => Raise TypeError
  | Some s =>
      let '(neg, body) := read_sign (strip (list_ascii_of_string s)) in
      let word := string_of_list_ascii (map lower body) in
      if String.eqb word "inf" || String.eqb word "infinity"
      then Ok (if neg then neg_infinity else infinity)
      else if String.eqb word "nan" then Ok nan
      else
        match read_mantissa body with
        | Some (ip, fp, rest) =>
            match read_exponent rest with
            | Some e =>
                Ok (of_decimal neg (digits_value (ip ++ fp))
                      (e - Z.of_nat (length fp)))
            | None => Raise ValueError
            end
        | None => Raise ValueError
        end
  end.

(** [float(n)] for an integer constant of the source. *)
Definition float_of_int (n : Z) : PrimFloat.float := of_decimal (n <? 0) (Z.abs n) 0.

(** [round(x, ndigits)] for [ndigits >= 0] (CPython 3): the exact value of
    [x] is rounded to [ndigits] decimal places, ties to the even digit, and
    the decimal obtained is converted back with correct rounding. Zeros,
    infinities and NaN round to themselves. *)
Definition round (x : PrimFloat.float) (ndigits : nat) : PrimFloat.float :=
  match Prim2SF x with
  | S754_finite s m e =>
      if 0 <=? e then x
      else
        let num := Zpos m * 10 ^ Z.of_nat ndigits in
        let den := 2 ^ (- e) in
        let q := num / den in
        let r := num mod den in
        let q' :=
          match 2 * r ?= den with
          | Lt => q
          | Gt => q + 1
          | Eq => if Z.even q then q else q + 1
          end in
        of_decimal s q' (- Z.of_nat ndigits)
  | _ => x
  end.

(** Values of the snapshot are compared with an integer by [!=]. *)
Definition float_ne_int (x : PrimFloat.float) (n : Z) : bool :=
  negb (PrimFloat.eqb x (float_of_int n)).

(** [str(n)] for an integer. *)
Definition str (n : Z) : string := NilZero.string_of_int (Z.to_int n).

End Py.

(** ** Element trees *)
Module ET.

(** An [xml.etree] element as the decoder reads it: its tag, its [text]
    (the character data before the first child, [None] when there is none)
    and its child elements, which [e[i]] indexes and a [for] loop visits in
    document order. *)
#[local] Unset Elimination Schemes.
Inductive Element :=
  | Elem (tag : string) (text : option string) (children : list Element).
#[local] Set Elimination Schemes.

Definition tag (e : Element) : string := let 'Elem t _ _ := e in t.
Definition text (e : Element) : option string := let 'Elem _ x _ := e in x.
Definition children (e : Element) : list Element := let 'Elem _ _ c := e in c.

(** [e[i]]: an [IndexError] when [e] has no child of that index. *)
Definition getitem (e : Element) (i : nat) : Res Element :=
  match children e !! i with
  | Some c => Ok c
  | None => Raise IndexError
  end.

(** *** A parser for plain markup

    [fromstring] itself belongs to the XML library; the decoder takes it as
    a parameter. [simple_fromstring] reads the documents made only of
    [<tag>], [</tag>], [<tag/>] and plain character data, and builds
    the tree [xml.etree] builds for them; everything else it refuses. It
    serves to run the decoder on concrete blobs. *)

Inductive token :=
  | TOpen (name : string)
  | TClose (name : string)
  | TEmpty (name : string)
  | TText (s : string).

Definition name_start (c : ascii) : bool :=
  let n := nat_of_ascii c in
  ((65 <=? n)%nat && (n <=? 90)%nat) || ((97 <=? n)%nat && (n <=? 122)%nat)
  || (n =? 95)%nat.

Definition name_char (c : ascii) : bool := name_start c || Py.isdigit c.

(** Character data the parser keeps as it is: printable ASCII, tab and
    newline, without the markup characters. *)
Definition text_char (c : ascii) : bool :=
  let n := nat_of_ascii c in
  (((32 <=? n)%nat && (n <=? 126)%nat) || (n =? 9)%nat || (n =? 10)%nat)
  && negb (Ascii.eqb c "<") && negb (Ascii.eqb c ">") && negb (Ascii.eqb c "&").

Definition is_name (s : list ascii) : bool :=
  match s with
  | c :: rest => name_start c && forallb name_char rest
  | [] => false
  end.

(** The token of the characters read between [<] and [>]. *)
Definition tag_token (body : list ascii) : option token :=
  match body with
  | "/"%char :: name =>
      if is_name name then Some (TClose (string_of_list_ascii name)) else None
  | _ =>
      match rev body with
      | "/"%char :: eman =>
          if is_name (rev eman)
          then Some (TEmpty (string_of_list_ascii (rev eman))) else None
      | _ =>
          if is_name body then Some (TOpen (string_of_list_ascii body)) else None
      end
  end.

Definition text_token (acc : list ascii) : list token :=
  match acc with
  | [] => []
  | _ => [TText (string_of_list_ascii (rev acc))]
  end.

(** One pass over the characters; [in_tag] tells whether a [<] is open and
    [acc] holds, reversed, the characters read since the last delimiter. *)
Fixpoint tokenize (in_tag : bool) (acc : list ascii) (s : list ascii)
  : option (list token) :=
  match s with
  | [] => if in_tag then None else Some (text_token acc)
  | c :: rest =>
      if in_tag then
        if Ascii.eqb c ">" then
          t ← tag_token (rev acc);
          ts ← tokenize false [] rest;
          Some (t :: ts)
        else if Ascii.eqb c "<" then None
        else tokenize true (c :: acc) rest
      else
        if Ascii.eqb c "<" then
          ts ← tokenize true [] rest;
          Some (text_token acc ++ ts)
        else if text_char c then tokenize false (c :: acc) rest
        else None
  end.

(** An element under construction: tag, text and the children closed so
    far, last first. *)
Definition frame : Type := string * option string * list Element.

Definition add_child (e : Element) (f : frame) : frame :=
  let '(t, x, kids) := f in (t, x, e :: kids).

Definition close_frame (f : frame) : Element :=
  let '(t, x, kids) := f in Elem t x (rev kids).

(** Builds the tree from the tokens with a stack of open elements; [root]
    is the document element once it is closed. Character data after a child
    is that child's tail, which the tree of this model does not keep. *)
Fixpoint build (stack : list frame) (root : option Element) (ts : list token)
  : option Element :=
  match ts with
  | [] => match stack with [] => root | _ => None end
  | TText s :: ts' =>
      match stack with
      | [] =>
          if forallb Py.isspace (list_ascii_of_string s)
          then build [] root ts' else None
      | (t, _, []) :: up => build ((t, Some s, []) :: up) root ts'
      | _ => build stack root ts'
      end
  | TOpen n :: ts' =>
      match stack, root with
      | [], Some _ => None
      | _, _ => build ((n, None, []) :: stack) root ts'
      end
  | TEmpty n :: ts' =>
      match stack, root with
      | [], Some _ => None
      | [], None => build [] (Some (Elem n None [])) ts'
      | f :: up, _ => build (add_child (Elem n None []) f :: up) root ts'
      end
  | TClose n :: ts' =>
      match stack with
      | [] => None
      | (t, x, kids) :: up =>
          if String.eqb t n then
            match up with
            | [] => build [] (Some (close_frame (t, x, kids))) ts'
            | f :: up' => build (add_child (close_frame (t, x, kids)) f :: up') root ts'
            end
          else None
      end
  end.

Definition simple_fromstring (s : string) : option Element :=
  ts ← tokenize false [] (list_ascii_of_string s);
  build [] None ts.

End ET.

Import ET.

(** ** The enumerations and their names *)

(** [class FanMode(IntEnum)]: the members are the integers 0 to 5. *)
Module FanMode.
Definition Off : Z := 0.
Definition Minimum : Z := 1.
Definition Low : Z := 2.
Definition Medium : Z := 3.
Definition High : Z := 4.
Definition Maximum : Z := 5.
End FanMode.

Module WaterLevel.
Definition Empty : Z := 0.
Definition Low : Z := 1.
Definition Good : Z := 2.
End WaterLevel.

Definition FAN_MODE_NAMES : list (Z * string) :=
  [ (FanMode.Off, "Off"); (FanMode.Minimum, "Minimum"); (FanMode.Low, "Low");
    (FanMode.Medium, "Medium"); (FanMode.High, "High");
    (FanMode.Maximum, "Maximum") ].

(** [DESIRED_HUMIDITY] numbers the set points 45, 50, 55, 60 and 100 from
    0 to 4; the table is keyed by those numbers. *)
Definition DESIRED_HUMIDITY_NAMES : list (Z * string) :=
  [ (0, "45"); (1, "50"); (2, "55"); (3, "60"); (4, "100") ].

Definition WATER_LEVEL_NAMES : list (Z * string) :=
  [ (WaterLevel.Empty, "Empty"); (WaterLevel.Low, "Low");
    (WaterLevel.Good, "Good") ].

(** ** Snapshot values *)

(** What the decoder stores under a key: an [int], a [float] or a [bool]. *)
Inductive value :=
  | VInt (n : Z)
  | VFloat (x : float)
  | VBool (b : bool).

(** [v != n] for [v] a stored value or [None] and [n] an enumeration
    member: [None] differs from every integer, a [bool] compares as 0 or 1,
    a [float] by its numeric value ([n] small enough to convert exactly). *)
Definition ne_int (v : option value) (n : Z) : bool :=
  match v with
  | None => true
  | Some (VInt z) => negb (z =? n)
  | Some (VFloat x) => Py.float_ne_int x n
  | Some (VBool b) => negb ((if b then 1 else 0) =? n)
  end.

(** [table.get(v, default)] for a table keyed by enumeration members: a key
    matches when it is equal to [v] in Python's sense. *)
Fixpoint names_get (table : list (Z * string)) (v : option value)
    (default : string) : string :=
  match table with
  | [] => default
  | (k, name) :: rest =>
      if ne_int v k then names_get rest v default else name
  end.

(** ** The decoder *)

(** The XML library's [fromstring]; [None] stands for a [ParseError]. *)
Class XMLParser := fromstring : string -> option Element.

(** [e.text == s]. *)
Definition text_is (e : Element) (s : string) : bool :=
  bool_decide (text e = Some s).

(** [attribute[0].text == s]. *)
Definition name_is (attribute : Element) (s : string) : Res bool :=
  do e <- getitem attribute 0 ;; Ok (text_is e s).

(** [attribute[1].text]. *)
Definition value_text (attribute : Element) : Res (option string) :=
  do e <- getitem attribute 1 ;; Ok (text e).

(** [attribute[1].text == s]. *)
Definition value_is (attribute : Element) (s : string) : Res bool :=
  do t <- value_text attribute ;; Ok (bool_decide (t = Some s)).

(** [a and b]: [b] is evaluated only when [a] is true. *)
Definition and_then (a b : Res bool) : Res bool :=
  do c <- a ;; if c then b else Ok false.

(** [try: result[key] = conv except ValueError: pass]. *)
Definition try_set (result : gmap string value) (key : string)
    (conv : Res value) : Res (gmap string value) :=
  match conv with
  | Ok v => Ok (<[key := v]> result)
  | Raise ValueError => Ok result
  | Raise e => Raise e
  end.

(** The percentage stored for a [FilterLife] reading [raw]. *)
Definition filter_life_of (raw : float) : float :=
  Py.round ((raw / Py.float_of_int 60480) * Py.float_of_int 100)%float 2.

(** The body of [for attribute in attributes]: one [if]/[elif] chain. The
    conditions on [NoWater] and [WaterAdvise] are conjunctions, whose
    second half is evaluated only when the name matches. *)
Definition decode_attribute (attribute : Element) (result : gmap string value)
  : Res (gmap string value) :=
  do c <- name_is attribute "FanMode" ;;
  if c then
    do t <- value_text attribute ;;
    try_set result "fan_mode" (do n <- Py.int t ;; Ok (VInt n))
  else
  do c <- name_is attribute "DesiredHumidity" ;;
  if c then
    do t <- value_text attribute ;;
    try_set result "desired_humidity" (do n <- Py.int t ;; Ok (VInt n))
  else
  do c <- name_is attribute "CurrentHumidity" ;;
  if c then
    do t <- value_text attribute ;;
    try_set result "current_humidity" (do x <- Py.float t ;; Ok (VFloat x))
  else
  do c <- and_then (name_is attribute "NoWater") (value_is attribute "1") ;;
  if c then
    try_set result "water_level" (Ok (VInt 0))
  else
  do c <- and_then (name_is attribute "WaterAdvise") (value_is attribute "1") ;;
  if c then
    try_set result "water_level" (Ok (VInt 1))
  else
  do c <- name_is attribute "FilterLife" ;;
  if c then
    do t <- value_text attribute ;;
    try_set result "filter_life" (do x <- Py.float t ;; Ok (VFloat (filter_life_of x)))
  else
  do c <- name_is attribute "ExpiredFilterTime" ;;
  if c then
    do t <- value_text attribute ;;
    try_set result "filter_expired" (do n <- Py.int t ;; Ok (VBool (negb (n =? 0))))
  else
    Ok result.

(** The loop over the children of the root, in document order. *)
Fixpoint decode_attributes (attributes : list Element)
    (result : gmap string value) : Res (gmap string value) :=
  match attributes with
  | [] => Ok result
  | attribute :: rest =>
      do result' <- decode_attribute attribute result ;;
      decode_attributes rest result'
  end.

(** The text handed to the parser: the blob inside a root element, with
    the escaped angle brackets restored. *)
Definition unescape (xml_blob : string) : string :=
  let xml_blob := "<attributes>" +:+ xml_blob +:+ "</attributes>" in
  let xml_blob := Py.replace xml_blob "&gt;" ">" in
  Py.replace xml_blob "&lt;" "<".

Definition attribute_xml_to_dict `{XMLParser} (xml_blob : string)
  : Res (gmap string value) :=
  let xml_blob := unescape xml_blob in
  let result : gmap string value := ∅ in
  match fromstring xml_blob with
  | None => Raise ParseError
  | Some attributes =>
      let result := <["water_level" := VInt 2]> result in
      decode_attributes (children attributes) result
  end.

(** The parser used to run the decoder on concrete blobs. *)
Definition simple_parser : XMLParser := simple_fromstring.

(** ** The device facade *)

(** A call made on the device's [deviceevent] service. *)
Inductive rpc :=
  | GetAttributes_call
  | SetAttributes_call (attributeList : string).

(** The [Humidifier] object: the cached snapshot [_attributes], the
    derived [_state] ([None] for Python's [None]), the device its
    [deviceevent] service talks to, and the calls made on that service so
    far, oldest first (a record kept by the model, not by the code). *)
Record Humidifier (Remote : Type) := mkHumidifier {
  _attributes : gmap string value;
  _state : option value;
  deviceevent : Remote;
  rpc_log : list rpc;
}.
Arguments mkHumidifier {Remote}.
Arguments _attributes {Remote}.
Arguments _state {Remote}.
Arguments deviceevent {Remote}.
Arguments rpc_log {Remote}.

(** What the module imports from the rest of the package: the two actions
    of the [deviceevent] service ([GetAttributes] answers with a
    dictionary, of which the code takes [.get('attributeList')]: [None]
    when the key is missing), the escaping function [quote_xml], and the
    base class's [Switch.subscription_update]. The calls return; failures
    of the transport are outside this model. *)
Class Collaborators (Remote : Type) := {
  GetAttributes : Remote -> option string * Remote;
  SetAttributes : string -> Remote -> Remote;
  quote_xml : string -> string;
  Switch_subscription_update :
    string -> string -> Humidifier Remote -> Res bool * Humidifier Remote;
}.

Section Facade.
Context `{XMLParser} {Remote : Type} `{Collaborators Remote}.

(** A method: it reads and updates the object and returns or raises. What
    was done before an exception stays done. *)
Definition Method (A : Type) : Type :=
  Humidifier Remote -> Res A * Humidifier Remote.

Definition ret {A : Type} (a : A) : Method A := fun self => (Ok a, self).

Definition seq {A B : Type} (m : Method A) (k : A -> Method B) : Method B :=
  fun self =>
    match m self with
    | (Ok a, self') => k a self'
    | (Raise e, self') => (Raise e, self')
    end.

Notation "'do!' x <- m ;; k" := (seq m (fun x => k))
  (at level 10, x name, m at level 99, k at level 200,
   format "'do!'  x  <-  m  ;;  '/' k").

(** A pure expression that may raise, inside a method. *)
Definition lift {A : Type} (r : Res A) : Method A := fun self => (r, self).

(** Reading a field or a property. *)
Definition read {A : Type} (f : Humidifier Remote -> A) : Method A :=
  fun self => (Ok (f self), self).

Definition set__attributes (d : gmap string value) : Method unit :=
  fun self =>
    (Ok tt, mkHumidifier d (_state self) (deviceevent self) (rpc_log self)).

Definition set__state (v : option value) : Method unit :=
  fun self =>
    (Ok tt, mkHumidifier (_attributes self) v (deviceevent self) (rpc_log self)).

(** [self.deviceevent.GetAttributes().get('attributeList')]. *)
Definition call_GetAttributes : Method (option string) :=
  fun self =>
    let '(resp, dev) := GetAttributes (deviceevent self) in
    (Ok resp,
     mkHumidifier (_attributes self) (_state self) dev
       (rpc_log self ++ [GetAttributes_call])).

(** [self.deviceevent.SetAttributes(attributeList=...)]. *)
Definition call_SetAttributes (attributeList : string) : Method unit :=
  fun self =>
    (Ok tt,
     mkHumidifier (_attributes self) (_state self)
       (SetAttributes attributeList (deviceevent self))
       (rpc_log self ++ [SetAttributes_call attributeList])).

(** *** Properties *)

Definition fan_mode (self : Humidifier Remote) : option value :=
  _attributes self !! "fan_mode".

Definition fan_mode_string (self : Humidifier Remote) : string :=
  names_get FAN_MODE_NAMES (fan_mode self) "Unknown".

Definition desired_humidity (self : Humidifier Remote) : option value :=
  _attributes self !! "desired_humidity".

Definition desired_humidity_percent (self : Humidifier Remote) : string :=
  names_get DESIRED_HUMIDITY_NAMES (desired_humidity self) "Unknown".

Definition current_humidity_percent (self : Humidifier Remote) : option value :=
  _attributes self !! "current_humidity".

Definition water_level (self : Humidifier Remote) : option value :=
  _attributes self !! "water_level".

Definition water_level_string (self : Humidifier Remote) : string :=
  names_get WATER_LEVEL_NAMES (water_level self) "Unknown".

Definition filter_life_percent (self : Humidifier Remote) : option value :=
  _attributes self !! "filter_life".

Definition filter_expired (self : Humidifier Remote) : option value :=
  _attributes self !! "filter_expired".

(** *** Methods *)

(** The decoder applied to what [GetAttributes] answered; concatenating a
    string with [None] is a [TypeError]. *)
Definition decode_response (resp : option string) : Res (gmap string value) :=
  match resp with
  | Some xml_blob => attribute_xml_to_dict xml_blob
  | None => Raise TypeError
  end.

Definition update_attributes : Method unit :=
  do! resp <- call_GetAttributes ;;
  do! d <- lift (decode_response resp) ;;
  do! _ <- set__attributes d ;;
  do! m <- read fan_mode ;;
  set__state m.

(** [self._attributes.update(d)]: the keys of [d] are written over the
    dictionary, the others stay. *)
Definition dict_update (d : gmap string value) : Method unit :=
  fun self =>
    (Ok tt,
     mkHumidifier (d ∪ _attributes self) (_state self) (deviceevent self)
       (rpc_log self)).

Definition subscription_update (_type _params : string) : Method bool :=
  if String.eqb _type "attributeList" then
    do! d <- lift (attribute_xml_to_dict _params) ;;
    do! _ <- dict_update d ;;
    do! m <- read fan_mode ;;
    do! _ <- set__state m ;;
    ret true
  else Switch_subscription_update _type _params.

Definition get_state (force_update : bool) : Method Z :=
  do! st <- read _state ;;
  do! _ <- (if force_update || bool_decide (st = None)
            then update_attributes else ret tt) ;;
  do! st <- read _state ;;
  ret (Z.b2z (ne_int st FanMode.Off)).

(** The setters take the integer of an enumeration, for which
    [int(fan_mode)] is [fan_mode] itself. *)
Definition set_fan_mode (fan_mode : Z) : Method unit :=
  do! _ <- call_SetAttributes
             (quote_xml ("<attribute><name>FanMode</name><value>"
                         +:+ Py.str fan_mode +:+ "</value></attribute>")) ;;
  do! _ <- get_state true ;;
  ret tt.

Definition set_state (state : Z) : Method unit := set_fan_mode state.

Definition set_humidity (desired_humidity : Z) : Method unit :=
  do! _ <- call_SetAttributes
             (quote_xml ("<attribute><name>DesiredHumidity</name><value>"
                         +:+ Py.str desired_humidity +:+ "</value></attribute>")) ;;
  do! _ <- get_state true ;;
  ret tt.

Definition set_fan_mode_and_humidity (fan_mode desired_humidity : Z)
  : Method unit :=
  do! _ <- call_SetAttributes
             (quote_xml ("<attribute><name>FanMode</name><value>"
                         +:+ Py.str fan_mode +:+ "</value></attribute>"
                         +:+ "<attribute><name>DesiredHumidity</name><value>"
                         +:+ Py.str desired_humidity +:+ "</value></attribute>")) ;;
  do! _ <- get_state true ;;
  ret tt.

(** [__init__], after the base class's constructor has run. *)
Definition __init__ : Method unit :=
  do! _ <- set__attributes ∅ ;;
  update_attributes.

(** The invariant of the object between calls: [_state] is the cached
    fan mode. *)
Definition consistent (self : Humidifier Remote) : Prop :=
  _state self = fan_mode self.

End Facade.

(** * Vocabulary of the statements *)

(** ** Running the model

    A device that answers [GetAttributes] with the blobs of a script, one
    per call, and an escaping function in the manner of the package's
    [quote_xml]; the base class's handler is a stub. They serve to run the
    methods on concrete inputs. *)

Definition escape_xml (s : string) : string :=
  Py.replace (Py.replace (Py.replace s "&" "&amp;") "<" "&lt;") ">" "&gt;".

Definition scripted : Collaborators (list string) := {|
  GetAttributes script :=
    match script with
    | blob :: rest => (Some blob, rest)
    | [] => (None, [])
    end;
  SetAttributes _ script := script;
  quote_xml := escape_xml;
  Switch_subscription_update _ _ self := (Ok false, self);
|}.

(** ** Reading the decoder by cases *)

(** The attribute names the decoder knows. *)
Inductive kind :=
  | KFanMode | KDesiredHumidity | KCurrentHumidity | KNoWater | KWaterAdvise
  | KFilterLife | KExpiredFilterTime | KOther.

Definition kind_of (name : option string) : kind :=
  if bool_decide (name = Some "FanMode") then KFanMode
  else if bool_decide (name = Some "DesiredHumidity") then KDesiredHumidity
  else if bool_decide (name = Some "CurrentHumidity") then KCurrentHumidity
  else if bool_decide (name = Some "NoWater") then KNoWater
  else if bool_decide (name = Some "WaterAdvise") then KWaterAdvise
  else if bool_decide (name = Some "FilterLife") then KFilterLife
  else if bool_decide (name = Some "ExpiredFilterTime") then KExpiredFilterTime
  else KOther.

(** What one attribute with a name child [en] and a value child [ev] does
    to the result. *)
Definition decode_named (en ev : Element) (result : gmap string value)
  : Res (gmap string value) :=
  match kind_of (text en) with
  | KFanMode =>
      try_set result "fan_mode" (do n <- Py.int (text ev) ;; Ok (VInt n))
  | KDesiredHumidity =>
      try_set result "desired_humidity" (do n <- Py.int (text ev) ;; Ok (VInt n))
  | KCurrentHumidity =>
      try_set result "current_humidity"
        (do x <- Py.float (text ev) ;; Ok (VFloat x))
  | KNoWater =>
      if text_is ev "1" then Ok (<["water_level" := VInt 0]> result)
      else Ok result
  | KWaterAdvise =>
      if text_is ev "1" then Ok (<["water_level" := VInt 1]> result)
      else Ok result
  | KFilterLife =>
      try_set result "filter_life"
        (do x <- Py.float (text ev) ;; Ok (VFloat (filter_life_of x)))
  | KExpiredFilterTime =>
      try_set result "filter_expired"
        (do n <- Py.int (text ev) ;; Ok (VBool (negb (n =? 0))))
  | KOther => Ok result
  end.

Ltac case_names :=
  repeat match goal with
         | |- context [bool_decide (?x = ?y)] =>
             destruct (bool_decide_reflect (x = y))
         end;
  simpl; try congruence.

(** ** What a decode stores *)

(** The texts of the name and value children of an attribute element, when
    it has both. *)
Definition name_value (a : Element) : option (option string * option string) :=
  match children a with
  | en :: ev :: _ => Some (text en, text ev)
  | _ => None
  end.

(** The key and value an attribute makes the decoder store, if any, when
    the decoder returns from it ([decode_attribute_stored]). *)
Definition stored (a : Element) : option (string * value) :=
  match name_value a with
  | Some (n, t) =>
      match kind_of n with
      | KFanMode =>
          match Py.int t with Ok z => Some ("fan_mode", VInt z) | _ => None end
      | KDesiredHumidity =>
          match Py.int t with
          | Ok z => Some ("desired_humidity", VInt z)
          | _ => None
          end
      | KCurrentHumidity =>
          match Py.float t with
          | Ok x => Some ("current_humidity", VFloat x)
          | _ => None
          end
      | KNoWater =>
          if bool_decide (t = Some "1")
          then Some ("water_level", VInt WaterLevel.Empty) else None
      | KWaterAdvise =>
          if bool_decide (t = Some "1")
          then Some ("water_level", VInt WaterLevel.Low) else None
      | KFilterLife =>
          match Py.float t with
          | Ok x => Some ("filter_life", VFloat (filter_life_of x))
          | _ => None
          end
      | KExpiredFilterTime =>
          match Py.int t with
          | Ok z => Some ("filter_expired", VBool (negb (z =? 0)))
          | _ => None
          end
      | KOther => None
      end
  | None => None
  end.

(** The value an attribute stores under [key], if it stores one there. *)
Definition stored_at (key : string) (a : Element) : option value :=
  match stored a with
  | Some (k, v) => if bool_decide (k = key) then Some v else None
  | None => None
  end.

Definition store (result : gmap string value) (kv : option (string * value))
  : gmap string value :=
  match kv with
  | Some (k, v) => <[k := v]> result
  | None => result
  end.

(** ** Attributes as the device writes them *)

(** An attribute element with a name child and a value child that has
    text, as the device writes them. *)
Definition complete (a : Element) : Prop :=
  exists n s, name_value a = Some (n, Some s).

(** ** The water level *)

(** [a] is an attribute named [n] with value [v]: its name child has text
    [n] and its value child has text [v]. *)
Definition is_attr (n v : string) (a : Element) : Prop :=
  name_value a = Some (Some n, Some v).

#[global] Instance is_attr_dec n v a : Decision (is_attr n v a).
Proof. unfold is_attr. apply _. Defined.

(** The water level an attribute signals: [Empty] for [NoWater] at "1",
    [Low] for [WaterAdvise] at "1". *)
Definition water_signal (a : Element) : option Z :=
  if decide (is_attr "NoWater" "1" a) then Some WaterLevel.Empty
  else if decide (is_attr "WaterAdvise" "1" a) then Some WaterLevel.Low
  else None.

(** ** The labels *)

(** The name the specification gives to a fan mode. *)
Definition canonical_fan_mode_name (v : Z) : string :=
  match v with
  | 0 => "Off"
  | 1 => "Minimum"
  | 2 => "Low"
  | 3 => "Medium"
  | 4 => "High"
  | 5 => "Maximum"
  | _ => "Unknown"
  end.

(** ** Calls of the setters *)

Section Sent.
Context {Remote : Type} `{Collaborators Remote}.

(** The object once [attributeList] has been sent to the device. *)
Definition sent (self : Humidifier Remote) (attributeList : string)
  : Humidifier Remote :=
  mkHumidifier (_attributes self) (_state self)
    (SetAttributes attributeList (deviceevent self))
    (rpc_log self ++ [SetAttributes_call attributeList]).

End Sent.

(** The fragment of one attribute. *)
Definition single_attribute (name value : string) : string :=
  "<attribute><name>" +:+ name +:+ "</name><value>" +:+ value
  +:+ "</value></attribute>".

(** ** Decimal strings *)

(** The digits of a decimal number, most significant first, and the
    characters [str] writes for it. *)
Fixpoint uint_digits (u : Decimal.uint) : list Z :=
  match u with
  | Decimal.Nil => []
  | Decimal.D0 u => 0 :: uint_digits u
  | Decimal.D1 u => 1 :: uint_digits u
  | Decimal.D2 u => 2 :: uint_digits u
  | Decimal.D3 u => 3 :: uint_digits u
  | Decimal.D4 u => 4 :: uint_digits u
  | Decimal.D5 u => 5 :: uint_digits u
  | Decimal.D6 u => 6 :: uint_digits u
  | Decimal.D7 u => 7 :: uint_digits u
  | Decimal.D8 u => 8 :: uint_digits u
  | Decimal.D9 u => 9 :: uint_digits u
  end.

Definition uint_chars (u : Decimal.uint) : list ascii :=
  list_ascii_of_string (NilEmpty.string_of_uint u).

(** ** Values that convert and values that do not *)

(** An attribute named [FanMode] whose value text [int] converts. *)
Definition parseable_fan_mode (a : Element) : Prop :=
  exists t z, name_value a = Some (Some "FanMode", t) /\ Py.int t = Ok z.

(** An attribute named [FilterLife] whose value text [float] converts. *)
Definition parseable_filter_life (a : Element) : Prop :=
  exists t x, name_value a = Some (Some "FilterLife", t) /\ Py.float t = Ok x.

(** The value text [s] of an attribute named [n] does not pass the
    conversion the decoder applies under that name. *)
Definition conversion_fails (n s : string) : Prop :=
  match kind_of (Some n) with
  | KFanMode | KDesiredHumidity | KExpiredFilterTime =>
      exists e, Py.int (Some s) = Raise e
  | KCurrentHumidity | KFilterLife =>
      exists e, Py.float (Some s) = Raise e
  | KNoWater | KWaterAdvise | KOther => False
  end.

(** ** Data of the examples *)

Definition humidity_blob : string :=
  "<attribute><name>CurrentHumidity</name><value>42.5</value></attribute>".

Definition humidity_delta : gmap string value :=
  <["current_humidity" := VFloat 42.5]> (<["water_level" := VInt 2]> ∅).

(** An object that cached fan mode 3 and whose device is about to answer
    with [humidity_blob]. *)
Definition medium_fan : Humidifier (list string) :=
  mkHumidifier (<["fan_mode" := VInt 3]> (<["water_level" := VInt 2]> ∅))
    (Some (VInt 3)) [humidity_blob] [].

(** An object whose [_state] is unset and whose device is about to answer
    with [humidity_blob]. *)
Definition unset : Humidifier (list string) :=
  mkHumidifier ∅ None [humidity_blob] [].

Definition no_water : Element :=
  Elem "attribute" None
    [Elem "name" (Some "NoWater") []; Elem "value" (Some "1") []].

Definition water_advise : Element :=
  Elem "attribute" None
    [Elem "name" (Some "WaterAdvise") []; Elem "value" (Some "1") []].

Definition no_water_blob : string :=
  "<attribute><name>NoWater</name><value>1</value></attribute>".

Definition water_advise_blob : string :=
  "<attribute><name>WaterAdvise</name><value>1</value></attribute>".

Definition filter_life_blob (raw : string) : string :=
  "<attribute><name>FilterLife</name><value>" +:+ raw +:+ "</value></attribute>".

Definition filter_life_attribute (raw : string) : Element :=
  Elem "attribute" None
    [Elem "name" (Some "FilterLife") []; Elem "value" (Some raw) []].

Definition abc_blob : string :=
  "<attribute><name>CurrentHumidity</name><value>abc</value></attribute>".

Definition abc_attribute : Element :=
  Elem "attribute" None
    [Elem "name" (Some "CurrentHumidity") []; Elem "value" (Some "abc") []].

(** ** The other setters, the other labels *)

(** The name the specification gives to a desired-humidity setting. *)
Definition canonical_humidity_name (v : Z) : string :=
  match v with
  | 0 => "45"
  | 1 => "50"
  | 2 => "55"
  | 3 => "60"
  | 4 => "100"
  | _ => "Unknown"
  end.

Definition canonical_water_level_name (v : Z) : string :=
  match v with
  | 0 => "Empty"
  | 1 => "Low"
  | 2 => "Good"
  | _ => "Unknown"
  end.

(** ** The fields of a delta *)

(** The names the decoder converts a value for, and the two it compares
    with "1". *)
Definition converted_names : list string :=
  ["FanMode"; "DesiredHumidity"; "CurrentHumidity"; "FilterLife";
   "ExpiredFilterTime"].

Definition known_names : list string :=
  ["FanMode"; "DesiredHumidity"; "CurrentHumidity"; "NoWater"; "WaterAdvise";
   "FilterLife"; "ExpiredFilterTime"].

(** The integer an attribute named [name] carries, when its value text
    converts. *)
Definition int_attr (name : string) (a : Element) : option Z :=
  match name_value a with
  | Some (n, t) =>
      if bool_decide (n = Some name)
      then match Py.int t with Ok z => Some z | Raise _ => None end
      else None
  | None => None
  end.

(** The float an attribute named [name] carries, when its value text
    converts. *)
Definition float_attr (name : string) (a : Element) : option float :=
  match name_value a with
  | Some (n, t) =>
      if bool_decide (n = Some name)
      then match Py.float t with Ok x => Some x | Raise _ => None end
      else None
  | None => None
  end.

(** What a delta may hold under a key: a level from 0 to 2, an integer, a
    float or a boolean according to the key, and nothing under any other
    key. *)
Definition field_ok (key : string) (v : value) : Prop :=
  (key = "water_level" /\ exists z, v = VInt z /\ 0 <= z <= 2)
  \/ ((key = "fan_mode" \/ key = "desired_humidity") /\ exists z, v = VInt z)
  \/ ((key = "current_humidity" \/ key = "filter_life") /\ exists x, v = VFloat x)
  \/ (key = "filter_expired" /\ exists b, v = VBool b).

(** An attribute element the decoder returns from: it has a first child,
    a second one unless the name is none of the seven known ones, and a
    value text unless the name is none of the five converted ones. *)
Definition accepted (a : Element) : Prop :=
  match children a with
  | [] => False
  | [en] => forall name, name ∈ known_names -> text en <> Some name
  | en :: ev :: _ =>
      text ev = None ->
      forall name, name ∈ converted_names -> text en <> Some name
  end.

(** Two attribute elements with a name child and a value child whose
    texts are the same. *)
Definition same_texts (a b : Element) : Prop :=
  name_value a = name_value b /\ name_value a <> None.

(** ** Escaped angle brackets *)

(** [s] with each angle bracket written as its entity, as the device
    sends markup inside an event. *)
Fixpoint escape_angles (s : string) : string :=
  match s with
  | EmptyString => EmptyString
  | String c rest =>
      if Ascii.eqb c "<" then "&lt;" +:+ escape_angles rest
      else if Ascii.eqb c ">" then "&gt;" +:+ escape_angles rest
      else String c (escape_angles rest)
  end.

(** The two replacements of [unescape], one after the other. *)
Definition restore_angles (s : string) : string :=
  Py.replace (Py.replace s "&gt;" ">") "&lt;" "<".

(** A string that cannot complete an entity whose characters after the
    ampersand are [p1], [p2] and [p3], if that entity was begun before it. *)
Definition starts_clear (p1 p2 p3 : ascii) (y : string) : Prop :=
  match y with
  | EmptyString => True
  | String c _ => c <> p1 /\ c <> p2 /\ c <> p3
  end.

(** A string that begins with an angle bracket or an ampersand. *)
Definition starts_markup (y : string) : Prop :=
  match y with
  | EmptyString => True
  | String c _ => c = "<"%char \/ c = ">"%char \/ c = "&"%char
  end.

(** ** The snapshot between calls *)

(** Every key of the snapshot holds a value of its type. *)
Definition well_typed {Remote : Type} (self : Humidifier Remote) : Prop :=
  forall key v, _attributes self !! key = Some v -> field_ok key v.

(** ** More data of the examples *)

(** The element the parser builds for one attribute. *)
Definition attribute_element (name value : string) : Element :=
  Elem "attribute" None
    [Elem "name" (Some name) []; Elem "value" (Some value) []].

(** The element the parser builds for an attribute whose value element is
    empty. *)
Definition valueless (name : string) : Element :=
  Elem "attribute" None [Elem "name" (Some name) []; Elem "value" None []].

(** A blob that reports fan mode 4 and desired humidity 2. *)
Definition high_fan_blob : string :=
  single_attribute "FanMode" "4" +:+ single_attribute "DesiredHumidity" "2".

Definition high_fan_delta : gmap string value :=
  <["desired_humidity" := VInt 2]>
    (<["fan_mode" := VInt 4]> (<["water_level" := VInt 2]> ∅)).

(** A new object whose device is about to answer twice with
    [high_fan_blob]. *)
Definition fresh : Humidifier (list string) :=
  mkHumidifier ∅ None [high_fan_blob; high_fan_blob] [].

(** An object that holds [high_fan_delta]. *)
Definition high_fan : Humidifier (list string) :=
  mkHumidifier high_fan_delta (Some (VInt 4)) [] [].

(** An object that cached fan mode 3 and whose device answers without an
    [attributeList]. *)
Definition mute_device : Humidifier (list string) :=
  mkHumidifier (<["fan_mode" := VInt 3]> (<["water_level" := VInt 2]> ∅))
    (Some (VInt 3)) [] [].

(** An object that cached an empty tank. *)
Definition dry : Humidifier (list string) :=
  mkHumidifier (<["water_level" := VInt 0]> ∅) None [] [].

(** * Lemmas and theorems *)

(** ** The decoder by cases: lemmas *)

Lemma decode_attribute_none (attribute : Element) result :
  children attribute = [] ->
  decode_attribute attribute result = Raise IndexError.
Proof.
  intros Hc. unfold decode_attribute, name_is, getitem. rewrite Hc. reflexivity.
Qed.

Lemma decode_attribute_name_only (attribute en : Element) result :
  children attribute = [en] ->
  decode_attribute attribute result =
    match kind_of (text en) with
    | KOther => Ok result
    | _ => Raise IndexError
    end.
Proof.
  intros Hc.
  unfold decode_attribute, and_then, name_is, value_is, value_text, getitem.
  rewrite Hc. simpl. unfold kind_of, text_is. case_names.
Qed.

Lemma decode_attribute_named (attribute en ev : Element) rest result :
  children attribute = en :: ev :: rest ->
  decode_attribute attribute result = decode_named en ev result.
Proof.
  intros Hc.
  unfold decode_attribute, decode_named, and_then, name_is, value_is,
    value_text, getitem.
  rewrite Hc. simpl. unfold kind_of, text_is. case_names.
Qed.

(** ** What a decode stores: lemmas *)

Lemma decode_attribute_stored (a : Element) (result result' : gmap string value) :
  decode_attribute a result = Ok result' ->
  result' = store result (stored a).
Proof.
  unfold stored, name_value.
  destruct (children a) as [|en [|ev rest]] eqn:Hc.
  - rewrite decode_attribute_none by done. discriminate.
  - rewrite (decode_attribute_name_only _ en) by done.
    destruct (kind_of (text en)); try discriminate. by intros [= <-].
  - rewrite (decode_attribute_named _ en ev rest) by done.
    unfold decode_named, text_is.
    destruct (kind_of (text en)); simpl;
      try (destruct (Py.int (text ev)) as [z|[]]; simpl; try discriminate;
           by intros [= <-]);
      try (destruct (Py.float (text ev)) as [x|[]]; simpl; try discriminate;
           by intros [= <-]);
      try (case_bool_decide; by intros [= <-]).
Qed.

Lemma decode_attributes_stored (attributes : list Element)
    (result result' : gmap string value) :
  decode_attributes attributes result = Ok result' ->
  result' = fold_left (fun d a => store d (stored a)) attributes result.
Proof.
  revert result. induction attributes as [|a rest IH]; intros result; simpl.
  - by intros [= <-].
  - destruct (decode_attribute a result) as [d1|e] eqn:Ha; simpl; [|discriminate].
    intros Hrest. apply decode_attribute_stored in Ha. subst d1. by apply IH.
Qed.

Lemma store_lookup (result : gmap string value) (a : Element) (key : string) :
  store result (stored a) !! key =
    match stored_at key a with
    | Some v => Some v
    | None => result !! key
    end.
Proof.
  unfold stored_at. destruct (stored a) as [[k v]|]; simpl; [|done].
  case_bool_decide.
  - subst k. by rewrite lookup_insert_eq.
  - by rewrite lookup_insert_ne.
Qed.

Lemma omap_stored_cons (key : string) (a : Element) (rest : list Element) :
  omap (stored_at key) (a :: rest) =
    match stored_at key a with
    | Some v => v :: omap (stored_at key) rest
    | None => omap (stored_at key) rest
    end.
Proof. reflexivity. Qed.

(** After the loop a key holds what the last attribute storing under that
    key stored, and its former value when no attribute did. *)
Lemma fold_store_lookup (attributes : list Element) (result : gmap string value)
    (key : string) :
  fold_left (fun d a => store d (stored a)) attributes result !! key =
    match last (omap (stored_at key) attributes) with
    | Some v => Some v
    | None => result !! key
    end.
Proof.
  revert result. induction attributes as [|a rest IH]; intros result.
  - done.
  - cbn [fold_left]. rewrite IH, store_lookup, omap_stored_cons.
    destruct (stored_at key a) as [v|]; [|done].
    rewrite last_cons. by destruct (last (omap (stored_at key) rest)).
Qed.

Lemma decode_attributes_lookup (attributes : list Element)
    (result result' : gmap string value) (key : string) :
  decode_attributes attributes result = Ok result' ->
  result' !! key =
    match last (omap (stored_at key) attributes) with
    | Some v => Some v
    | None => result !! key
    end.
Proof.
  intros Hd. apply decode_attributes_stored in Hd. subst result'.
  apply fold_store_lookup.
Qed.

Lemma omap_stored_nil (key : string) (attributes : list Element) :
  Forall (fun b => stored_at key b = None) attributes ->
  omap (stored_at key) attributes = [].
Proof.
  induction 1 as [|b l Hb _ IH]; [done|]. by rewrite omap_stored_cons, Hb.
Qed.

(** The last store under [key] of a list cut at an attribute [a] after
    which nothing is stored under [key]. *)
Lemma last_stored_at_split (key : string) (before after : list Element)
    (a : Element) :
  Forall (fun b => stored_at key b = None) after ->
  last (omap (stored_at key) (before ++ a :: after)) =
    match stored_at key a with
    | Some v => Some v
    | None => last (omap (stored_at key) before)
    end.
Proof.
  intros Hafter.
  rewrite omap_app, omap_stored_cons, (omap_stored_nil _ _ Hafter).
  destruct (stored_at key a) as [v|].
  - by rewrite last_snoc.
  - by rewrite app_nil_r.
Qed.

(** ** When the decoder returns *)

Lemma int_raises_ValueError (s : string) (e : exn) :
  Py.int (Some s) = Raise e -> e = ValueError.
Proof.
  unfold Py.int.
  destruct (Py.read_sign _) as [neg body].
  destruct (Py.read_digits body) as [[ds [|c rest]]|]; congruence.
Qed.

Lemma float_raises_ValueError (s : string) (e : exn) :
  Py.float (Some s) = Raise e -> e = ValueError.
Proof.
  unfold Py.float.
  destruct (Py.read_sign _) as [neg body].
  destruct (_ || _); [discriminate|].
  destruct (String.eqb _ "nan"); [discriminate|].
  destruct (Py.read_mantissa body) as [[[ip fp] rest]|]; [|congruence].
  destruct (Py.read_exponent rest); congruence.
Qed.

Lemma try_set_int (result : gmap string value) (key : string)
    (f : Z -> value) (s : string) :
  try_set result key (do n <- Py.int (Some s) ;; Ok (f n)) =
    Ok (match Py.int (Some s) with
        | Ok z => <[key := f z]> result
        | Raise _ => result
        end).
Proof.
  destruct (Py.int (Some s)) as [z|e] eqn:E; simpl; [done|].
  by rewrite (int_raises_ValueError _ _ E).
Qed.

Lemma try_set_float (result : gmap string value) (key : string)
    (f : float -> value) (s : string) :
  try_set result key (do x <- Py.float (Some s) ;; Ok (f x)) =
    Ok (match Py.float (Some s) with
        | Ok x => <[key := f x]> result
        | Raise _ => result
        end).
Proof.
  destruct (Py.float (Some s)) as [x|e] eqn:E; simpl; [done|].
  by rewrite (float_raises_ValueError _ _ E).
Qed.

Lemma decode_attribute_complete (a : Element) (result : gmap string value) :
  complete a ->
  decode_attribute a result = Ok (store result (stored a)).
Proof.
  intros (n & s & Hnv). unfold stored. rewrite Hnv.
  unfold name_value in Hnv.
  destruct (children a) as [|en [|ev rest]] eqn:Hc; try discriminate.
  injection Hnv as <- Hs.
  rewrite (decode_attribute_named _ en ev rest) by done.
  unfold decode_named, text_is. rewrite Hs.
  destruct (kind_of (text en));
    rewrite ?try_set_int, ?try_set_float;
    first [ by destruct (Py.int (Some s))
          | by destruct (Py.float (Some s))
          | by case_bool_decide
          | done ].
Qed.

Lemma decode_attributes_complete (attributes : list Element)
    (result : gmap string value) :
  Forall complete attributes ->
  decode_attributes attributes result =
    Ok (fold_left (fun d a => store d (stored a)) attributes result).
Proof.
  intros Hall. revert result.
  induction Hall as [|a rest Ha _ IH]; intros result; simpl; [done|].
  rewrite decode_attribute_complete by done. simpl. apply IH.
Qed.

(** ** The water level: lemmas *)

Lemma stored_at_water_level (a : Element) :
  stored_at "water_level" a = VInt <$> water_signal a.
Proof.
  unfold stored_at, stored, water_signal.
  destruct (decide (is_attr "NoWater" "1" a)) as [H1|H1];
    [unfold is_attr in H1; by rewrite H1|].
  destruct (decide (is_attr "WaterAdvise" "1" a)) as [H2|H2];
    [unfold is_attr in H2; by rewrite H2|].
  unfold is_attr in *.
  destruct (name_value a) as [[n t]|]; [|done].
  unfold kind_of.
  repeat case_bool_decide; simplify_eq; simpl; try done;
    first [ by destruct (Py.int t) | by destruct (Py.float t) ].
Qed.

Lemma omap_stored_water_level (attributes : list Element) :
  omap (stored_at "water_level") attributes =
    VInt <$> omap water_signal attributes.
Proof.
  rewrite list_fmap_omap. apply list_omap_ext.
  induction attributes; constructor; [apply stored_at_water_level|done].
Qed.

(** The level a decode returns is the last signal of the fragment in
    document order, and [Good] when there is none. *)
Lemma decoded_water_level (attributes : list Element)
    (d : gmap string value) :
  decode_attributes attributes (<["water_level" := VInt 2]> ∅) = Ok d ->
  d !! "water_level" =
    Some (VInt (default WaterLevel.Good (last (omap water_signal attributes)))).
Proof.
  intros Hd.
  rewrite (decode_attributes_lookup _ _ _ "water_level" Hd).
  rewrite omap_stored_water_level, fmap_last, lookup_insert_eq.
  by destruct (last (omap water_signal attributes)).
Qed.

(** The last signal of a list cut at a signalling attribute after which
    only the same signal, or none, occurs. *)
Lemma last_signal_split (z : Z) (before after : list Element) (a : Element) :
  water_signal a = Some z ->
  Forall (fun b => water_signal b = None \/ water_signal b = Some z) after ->
  last (omap water_signal (before ++ a :: after)) = Some z.
Proof.
  intros Ha Hafter.
  rewrite omap_app. cbn [omap list_omap]. rewrite Ha, last_app_cons.
  destruct (last (z :: omap water_signal after)) as [y|] eqn:Hl.
  - apply last_Some_elem_of in Hl.
    apply elem_of_cons in Hl as [->|Hy]; [done|].
    apply list_elem_of_omap in Hy as (b & Hb & Hsig).
    rewrite Forall_forall in Hafter.
    destruct (Hafter b Hb) as [Hn|Hz]; congruence.
  - by apply last_None in Hl.
Qed.

Lemma not_signal (a : Element) :
  ~ is_attr "NoWater" "1" a -> ~ is_attr "WaterAdvise" "1" a ->
  water_signal a = None.
Proof. intros H1 H2. unfold water_signal. by rewrite !decide_False. Qed.

Lemma signal_NoWater (a : Element) :
  is_attr "NoWater" "1" a -> water_signal a = Some WaterLevel.Empty.
Proof. intros H1. unfold water_signal. by rewrite decide_True. Qed.

Lemma signal_WaterAdvise (a : Element) :
  is_attr "WaterAdvise" "1" a -> water_signal a = Some WaterLevel.Low.
Proof.
  intros H2. unfold water_signal.
  rewrite decide_False, decide_True; [done..|].
  unfold is_attr in *. congruence.
Qed.

Lemma signal_cases (a : Element) :
  (water_signal a = None /\
   ~ is_attr "NoWater" "1" a /\ ~ is_attr "WaterAdvise" "1" a)
  \/ (water_signal a = Some WaterLevel.Empty /\ is_attr "NoWater" "1" a)
  \/ (water_signal a = Some WaterLevel.Low /\ is_attr "WaterAdvise" "1" a).
Proof.
  unfold water_signal. repeat case_decide; auto.
Qed.

Lemma omap_signal_nil (attributes : list Element) :
  Forall (fun a => water_signal a = None) attributes ->
  omap water_signal attributes = [].
Proof.
  induction 1 as [|a l Ha _ IH]; [done|].
  change (omap water_signal (a :: l))
    with (match water_signal a with
          | Some z => z :: omap water_signal l
          | None => omap water_signal l
          end).
  by rewrite Ha.
Qed.

(** A list with a signalling attribute splits at its last one. *)
Lemma last_signal_exists (attributes : list Element) :
  Exists (fun a => water_signal a <> None) attributes ->
  exists before a after,
    attributes = before ++ a :: after /\ water_signal a <> None /\
    Forall (fun b => water_signal b = None) after.
Proof.
  induction attributes as [|x l IH] using rev_ind; intros Hex.
  - by apply Exists_nil in Hex.
  - destruct (water_signal x) as [z|] eqn:Hx.
    + exists l, x, []. rewrite Hx. by repeat split.
    + apply Exists_app in Hex as [Hex|Hex].
      * destruct (IH Hex) as (before & a & after & -> & Ha & Hafter).
        exists before, a, (after ++ [x]). repeat split; [|done|].
        -- by rewrite <- app_assoc.
        -- apply Forall_app. split; [done|]. by constructor.
      * apply Exists_cons in Hex as [Hex|Hex]; [done|].
        by apply Exists_nil in Hex.
Qed.

Lemma decode_attributes_app (l1 l2 : list Element) (result : gmap string value) :
  decode_attributes (l1 ++ l2) result =
    do result' <- decode_attributes l1 result ;; decode_attributes l2 result'.
Proof.
  revert result. induction l1 as [|a l1 IH]; intros result; simpl; [done|].
  destruct (decode_attribute a result); simpl; [apply IH|done].
Qed.

Section Decoder.
Context `{XMLParser}.

Lemma attribute_xml_to_dict_parsed (xml_blob : string) (attributes : Element) :
  fromstring (unescape xml_blob) = Some attributes ->
  attribute_xml_to_dict xml_blob =
    decode_attributes (children attributes) (<["water_level" := VInt 2]> ∅).
Proof. intros Hp. unfold attribute_xml_to_dict. by rewrite Hp. Qed.

Lemma attribute_xml_to_dict_unparsed (xml_blob : string) :
  fromstring (unescape xml_blob) = None ->
  attribute_xml_to_dict xml_blob = Raise ParseError.
Proof. intros Hp. unfold attribute_xml_to_dict. by rewrite Hp. Qed.

(** C2. For a fragment that parses, the decode of a fragment of complete
    attributes returns, and every delta the decoder returns has
    [water_level]: it is [Good] (2) when no attribute is [NoWater] at "1"
    or [WaterAdvise] at "1", [Empty] (0) when an attribute is [NoWater] at
    "1" and no later one is [WaterAdvise] at "1", and [Low] (1) when an
    attribute is [WaterAdvise] at "1" and no later one is [NoWater] at
    "1". *)
Theorem water_level_of_fragment (xml_blob : string) (attributes : Element) :
  fromstring (unescape xml_blob) = Some attributes ->
  (Forall complete (children attributes) ->
   exists d, attribute_xml_to_dict xml_blob = Ok d) /\
  forall d, attribute_xml_to_dict xml_blob = Ok d ->
    is_Some (d !! "water_level") /\
    (Forall (fun a => ~ is_attr "NoWater" "1" a /\ ~ is_attr "WaterAdvise" "1" a)
       (children attributes) ->
     d !! "water_level" = Some (VInt WaterLevel.Good)) /\
    (forall before a after,
       children attributes = before ++ a :: after ->
       is_attr "NoWater" "1" a ->
       Forall (fun b => ~ is_attr "WaterAdvise" "1" b) after ->
       d !! "water_level" = Some (VInt WaterLevel.Empty)) /\
    (forall before a after,
       children attributes = before ++ a :: after ->
       is_attr "WaterAdvise" "1" a ->
       Forall (fun b => ~ is_attr "NoWater" "1" b) after ->
       d !! "water_level" = Some (VInt WaterLevel.Low)).
Proof.
  intros Hp. rewrite (attribute_xml_to_dict_parsed _ _ Hp). split.
  - intros Hall. rewrite decode_attributes_complete by done. eauto.
  - intros d Hd. apply decoded_water_level in Hd. rewrite Hd.
    split; [done|]. split; [|split].
    + intros Hnone. rewrite omap_signal_nil; [done|].
      eapply Forall_impl; [exact Hnone|]. intros a [H1 H2].
      by apply not_signal.
    + intros before a after -> Ha Hafter.
      rewrite (last_signal_split WaterLevel.Empty); [done|by apply signal_NoWater|].
      eapply Forall_impl; [exact Hafter|]. intros b Hb. simpl in Hb.
      destruct (signal_cases b) as [(?&_)|[(?&_)|(_&?)]]; auto. done.
    + intros before a after -> Ha Hafter.
      rewrite (last_signal_split WaterLevel.Low);
        [done|by apply signal_WaterAdvise|].
      eapply Forall_impl; [exact Hafter|]. intros b Hb. simpl in Hb.
      destruct (signal_cases b) as [(?&_)|[(_&?)|(?&_)]]; auto. done.
Qed.

(** C3. When a fragment that parses holds both a [NoWater] at "1" and a
    [WaterAdvise] at "1", the decoded level is that of whichever of them
    comes last in document order: 0 when it is the [NoWater], 1 when it is
    the [WaterAdvise]. In general the level is the last signal of the
    fragment. *)
Theorem last_water_attribute_wins (xml_blob : string) (attributes : Element)
    (d : gmap string value) :
  fromstring (unescape xml_blob) = Some attributes ->
  attribute_xml_to_dict xml_blob = Ok d ->
  d !! "water_level" =
    Some (VInt (default WaterLevel.Good
                  (last (omap water_signal (children attributes))))) /\
  (Exists (is_attr "NoWater" "1") (children attributes) ->
   Exists (is_attr "WaterAdvise" "1") (children attributes) ->
   exists before a after,
     children attributes = before ++ a :: after /\
     Forall (fun b => ~ is_attr "NoWater" "1" b /\ ~ is_attr "WaterAdvise" "1" b)
       after /\
     ((is_attr "NoWater" "1" a /\
       d !! "water_level" = Some (VInt WaterLevel.Empty))
      \/ (is_attr "WaterAdvise" "1" a /\
          d !! "water_level" = Some (VInt WaterLevel.Low)))).
Proof.
  intros Hp Hd. rewrite (attribute_xml_to_dict_parsed _ _ Hp) in Hd.
  apply decoded_water_level in Hd. split; [done|].
  intros Hno _.
  destruct (last_signal_exists (children attributes))
    as (before & a & after & Hsplit & Ha & Hafter).
  { eapply Exists_impl; [exact Hno|]. intros b Hb.
    by rewrite (signal_NoWater b Hb). }
  exists before, a, after. split; [done|]. split.
  - eapply Forall_impl; [exact Hafter|]. intros b Hb. simpl in Hb.
    destruct (signal_cases b) as [(_&?)|[(?&_)|(?&_)]]; [done|congruence..].
  - rewrite Hd, Hsplit.
    destruct (signal_cases a) as [(?&_)|[(Hs&?)|(Hs&?)]]; [done|left|right];
      (split; [done|]);
      erewrite last_signal_split; [done|exact Hs| |done|exact Hs|];
      (eapply Forall_impl; [exact Hafter|]; intros b Hb; by left).
Qed.

End Decoder.

(** ** [int] reads back what [str] writes *)

Lemma read_digits_from_uint (u : Decimal.uint) (acc : list Z) :
  Py.read_digits_from acc (uint_chars u) = (rev acc ++ uint_digits u, []).
Proof.
  unfold uint_chars. revert acc.
  induction u; intros acc; cbn [NilEmpty.string_of_uint list_ascii_of_string Py.read_digits_from uint_digits];
    [by rewrite app_nil_r|..];
    (change (Py.isdigit _) with true; cbn iota; rewrite IHu; cbn [rev];
     by rewrite <- app_assoc).
Qed.

Lemma uint_chars_not_space (u : Decimal.uint) :
  Forall (fun c => Py.isspace c = false) (uint_chars u).
Proof.
  unfold uint_chars. induction u; simpl; constructor; done.
Qed.

Lemma strip_no_space (l : list ascii) :
  Forall (fun c => Py.isspace c = false) l -> Py.strip l = l.
Proof.
  assert (forall s, Forall (fun c => Py.isspace c = false) s -> Py.lstrip s = s)
    as Hl.
  { intros s Hs. destruct Hs as [|c s Hc _]; [done|]. simpl. by rewrite Hc. }
  intros Hall. unfold Py.strip. rewrite (Hl l Hall).
  rewrite Hl; [apply rev_involutive|].
  apply Forall_forall. intros c Hc. rewrite Forall_forall in Hall.
  apply Hall. apply list_elem_of_In. apply in_rev. by apply list_elem_of_In.
Qed.

Lemma digits_value_acc (u : Decimal.uint) (acc : positive) :
  fold_left (fun n d => 10 * n + d) (uint_digits u) (Zpos acc) =
    Zpos (Pos.of_uint_acc u acc).
Proof.
  revert acc. induction u; intros acc; cbn [uint_digits fold_left Pos.of_uint_acc];
    [done|..];
    (match goal with
     | |- fold_left _ _ ?z = _ =>
         match goal with
         | |- _ = Zpos (Pos.of_uint_acc _ ?q) =>
             replace z with (Zpos q) by lia
         end
     end; apply IHu).
Qed.

Lemma digits_value_uint (u : Decimal.uint) :
  Py.digits_value (uint_digits u) = Z.of_N (Pos.of_uint u).
Proof.
  unfold Py.digits_value.
  induction u; cbn [uint_digits fold_left Pos.of_uint]; [done|exact IHu|..];
    (match goal with
     | |- fold_left _ _ ?z = Z.of_N (Npos (Pos.of_uint_acc _ ?q)) =>
         change z with (Zpos q)
     end; by rewrite digits_value_acc).
Qed.

(** The string [str] gives for an integer is a decimal literal of it. *)
Lemma int_str (m : Z) : Py.int (Some (Py.str m)) = Ok m.
Proof.
  unfold Py.str, Py.int.
  destruct m as [|p|p]; [done|..]; cbn [Z.to_int NilZero.string_of_int];
    pose proof (DecimalPos.Unsigned.to_uint_nonnil p) as Hnil;
    pose proof (DecimalPos.Unsigned.of_to p) as Hp;
    pose proof (digits_value_uint (Pos.to_uint p)) as Hv;
    pose proof (uint_chars_not_space (Pos.to_uint p)) as Hs;
    unfold uint_chars in *;
    destruct (Pos.to_uint p) as [|u|u|u|u|u|u|u|u|u|u] eqn:Hu; try done.
  all: cbn [NilZero.string_of_uint NilEmpty.string_of_uint list_ascii_of_string] in *.
  all: rewrite strip_no_space by first [exact Hs | by constructor].
  all: cbn [Py.read_sign Py.read_digits].
  all: change (Py.isdigit _) with true; cbn iota.
  all: fold (uint_chars u); rewrite read_digits_from_uint; cbn [rev app].
  all: rewrite Hp in Hv; cbn [Z.of_N] in Hv.
  all: try change (Z.neg p) with (- Z.pos p).
  all: by rewrite <- Hv.
Qed.

(** ** The facade, method by method *)

Section FacadeFacts.
Context `{XMLParser} {Remote : Type} `{Collaborators Remote}.
Implicit Types self : Humidifier Remote.

(** A refresh makes one [GetAttributes] call; when the answer decodes, the
    decode becomes the snapshot and [_state] its fan mode; when it does
    not, the exception leaves and the fields stay as they were. *)
Lemma update_attributes_run self :
  update_attributes self =
    let '(resp, dev) := GetAttributes (deviceevent self) in
    let log := rpc_log self ++ [GetAttributes_call] in
    match decode_response resp with
    | Ok d => (Ok tt, mkHumidifier d (d !! "fan_mode") dev log)
    | Raise e => (Raise e, mkHumidifier (_attributes self) (_state self) dev log)
    end.
Proof.
  unfold update_attributes, seq, call_GetAttributes, lift.
  destruct (GetAttributes (deviceevent self)) as [resp dev].
  by destruct (decode_response resp).
Qed.

Lemma update_attributes_log self r self' :
  update_attributes self = (r, self') ->
  rpc_log self' = rpc_log self ++ [GetAttributes_call].
Proof.
  rewrite update_attributes_run.
  destruct (GetAttributes (deviceevent self)) as [resp dev].
  destruct (decode_response resp); by intros [= <- <-].
Qed.

Lemma update_attributes_consistent self r self' :
  consistent self ->
  update_attributes self = (r, self') ->
  consistent self'.
Proof.
  unfold consistent, fan_mode. rewrite update_attributes_run.
  destruct (GetAttributes (deviceevent self)) as [resp dev].
  destruct (decode_response resp); by intros ? [= <- <-].
Qed.

Lemma update_attributes_ok_consistent self self' :
  update_attributes self = (Ok tt, self') ->
  consistent self'.
Proof.
  unfold consistent, fan_mode. rewrite update_attributes_run.
  destruct (GetAttributes (deviceevent self)) as [resp dev].
  destruct (decode_response resp); [by intros [= <-]|discriminate].
Qed.

(** A push of kind [attributeList] makes no call; when the payload
    decodes, the delta is written over the snapshot. *)
Lemma subscription_update_run self (_params : string) :
  subscription_update "attributeList" _params self =
    match attribute_xml_to_dict _params with
    | Ok d =>
        (Ok true,
         mkHumidifier (d ∪ _attributes self)
           ((d ∪ _attributes self) !! "fan_mode")
           (deviceevent self) (rpc_log self))
    | Raise e => (Raise e, self)
    end.
Proof.
  unfold subscription_update, seq, lift. simpl.
  by destruct (attribute_xml_to_dict _params).
Qed.

Lemma get_state_run self (force_update : bool) :
  get_state force_update self =
    if force_update || bool_decide (_state self = None)
    then match update_attributes self with
         | (Ok _, self') => (Ok (Z.b2z (ne_int (_state self') FanMode.Off)), self')
         | (Raise e, self') => (Raise e, self')
         end
    else (Ok (Z.b2z (ne_int (_state self) FanMode.Off)), self).
Proof.
  unfold get_state, seq, read, ret. simpl.
  destruct (force_update || bool_decide (_state self = None)); [|done].
  by destruct (update_attributes self) as [[[]|e] self'].
Qed.

Lemma get_state_consistent self force_update r self' :
  consistent self ->
  get_state force_update self = (r, self') ->
  consistent self'.
Proof.
  intros Hc. rewrite get_state_run.
  destruct (force_update || bool_decide (_state self = None)).
  - destruct (update_attributes self) as [[[]|e] self1] eqn:Hu;
      intros [= <- <-]; by eapply update_attributes_consistent.
  - by intros [= <- <-].
Qed.

(** What [get_state] returns is read from the fan mode of the object it
    leaves, when it refreshes or when [_state] was the cached fan mode. *)
Lemma get_state_result self (force_update : bool) r self' :
  force_update = true \/ consistent self ->
  get_state force_update self = (Ok r, self') ->
  consistent self' /\ r = Z.b2z (ne_int (fan_mode self') FanMode.Off).
Proof.
  intros Hc. rewrite get_state_run.
  destruct (force_update || bool_decide (_state self = None)) eqn:Hrefresh.
  - destruct (update_attributes self) as [[[]|e] self1] eqn:Hu; [|done].
    intros [= <- <-].
    pose proof (update_attributes_ok_consistent _ _ Hu) as Hc'.
    split; [done|]. by rewrite Hc'.
  - intros [= <- <-]. destruct Hc as [->|Hc]; [done|].
    split; [done|]. by rewrite Hc.
Qed.

Lemma subscription_update_consistent self (_params : string) r self' :
  consistent self ->
  subscription_update "attributeList" _params self = (r, self') ->
  consistent self'.
Proof.
  intros Hc. rewrite subscription_update_run.
  destruct (attribute_xml_to_dict _params); by intros [= <- <-].
Qed.

(** A constructed object satisfies the invariant. *)
Lemma init_consistent self self' :
  __init__ self = (Ok tt, self') ->
  consistent self'.
Proof.
  unfold __init__, seq, set__attributes. apply update_attributes_ok_consistent.
Qed.

(** [set_fan_mode] is the [SetAttributes] call followed by one refresh. *)
Lemma set_fan_mode_run self (m : Z) :
  set_fan_mode m self =
    update_attributes
      (sent self (quote_xml (single_attribute "FanMode" (Py.str m)))).
Proof.
  unfold set_fan_mode, seq, call_SetAttributes, ret.
  change ("<attribute><name>FanMode</name><value>" +:+ Py.str m
          +:+ "</value></attribute>")
    with (single_attribute "FanMode" (Py.str m)).
  fold (sent self (quote_xml (single_attribute "FanMode" (Py.str m)))).
  rewrite get_state_run. simpl.
  by destruct (update_attributes _) as [[[]|e] self'].
Qed.

Lemma set_fan_mode_consistent self (m : Z) r self' :
  consistent self ->
  set_fan_mode m self = (r, self') ->
  consistent self'.
Proof.
  intros Hc. rewrite set_fan_mode_run. by apply update_attributes_consistent.
Qed.

Lemma set_state_consistent self (state : Z) r self' :
  consistent self ->
  set_state state self = (r, self') ->
  consistent self'.
Proof. apply set_fan_mode_consistent. Qed.

End FacadeFacts.

(** ** The labels: lemmas *)

Lemma names_get_total (table : list (Z * string)) (v : option value)
    (default : string) :
  names_get table v default ∈ default :: table.*2.
Proof.
  induction table as [|[k name] rest IH]; simpl.
  - apply list_elem_of_here.
  - destruct (ne_int v k).
    + apply elem_of_cons in IH as [->|IH].
      * apply list_elem_of_here.
      * by do 2 apply list_elem_of_further.
    + apply list_elem_of_further, list_elem_of_here.
Qed.

Lemma fan_mode_name_int (v : Z) :
  names_get FAN_MODE_NAMES (Some (VInt v)) "Unknown" = canonical_fan_mode_name v.
Proof.
  unfold FAN_MODE_NAMES, names_get, ne_int, canonical_fan_mode_name,
    FanMode.Off, FanMode.Minimum, FanMode.Low, FanMode.Medium, FanMode.High,
    FanMode.Maximum.
  destruct (Z.eqb_spec v 0) as [->|?]; [done|].
  destruct (Z.eqb_spec v 1) as [->|?]; [done|].
  destruct (Z.eqb_spec v 2) as [->|?]; [done|].
  destruct (Z.eqb_spec v 3) as [->|?]; [done|].
  destruct (Z.eqb_spec v 4) as [->|?]; [done|].
  destruct (Z.eqb_spec v 5) as [->|?]; [done|].
  simpl. destruct v as [|[[[]|[]|]|[[]|[]|]|]|]; done.
Qed.

Section Claims.
Context `{XMLParser} {Remote : Type} `{Collaborators Remote}.
Implicit Types self : Humidifier Remote.

(** C8. When the cached fan mode is the integer [v], the accessor returns
    [v], and [fan_mode_string] is the canonical name of [v] for [v] from 0
    to 5 and "Unknown" for any other [v]. Whatever the snapshot holds, the
    three label lookups return a label of their table or "Unknown". *)
Theorem fan_mode_labels self :
  (forall v : Z,
     _attributes self !! "fan_mode" = Some (VInt v) ->
     fan_mode self = Some (VInt v) /\
     fan_mode_string self = canonical_fan_mode_name v /\
     (0 <= v <= 5 ->
      FAN_MODE_NAMES !! Z.to_nat v = Some (v, fan_mode_string self)) /\
     (~ 0 <= v <= 5 -> fan_mode_string self = "Unknown")) /\
  fan_mode_string self ∈
    ["Unknown"; "Off"; "Minimum"; "Low"; "Medium"; "High"; "Maximum"] /\
  desired_humidity_percent self ∈ ["Unknown"; "45"; "50"; "55"; "60"; "100"] /\
  water_level_string self ∈ ["Unknown"; "Empty"; "Low"; "Good"].
Proof.
  split; [|split; [|split]];
    [|apply (names_get_total FAN_MODE_NAMES)
     |apply (names_get_total DESIRED_HUMIDITY_NAMES)
     |apply (names_get_total WATER_LEVEL_NAMES)].
  intros v Hv. unfold fan_mode_string, fan_mode. rewrite Hv, fan_mode_name_int.
  split; [done|]. split; [done|]. split.
  - intros Hr.
    assert (v = 0 \/ v = 1 \/ v = 2 \/ v = 3 \/ v = 4 \/ v = 5)
      as [->|[->|[->|[->|[->| ->]]]]] by lia; done.
  - intros Hr. destruct v as [|[[[]|[]|]|[[]|[]|]|]|]; try done; lia.
Qed.

(** C4. [get_state] with [force_update] makes exactly one refresh and
    answers from the refreshed object; without it and with [_state] set it
    makes none and leaves the object as it is. Whenever it returns, on an
    object it refreshed or whose [_state] was its cached fan mode, the
    result is 0 when the cached fan mode is 0 and 1 when it is anything
    else. *)
Theorem get_state_reports_fan_mode self (force_update : bool) :
  (force_update = true ->
   exists r self',
     update_attributes self = (r, self') /\
     rpc_log self' = rpc_log self ++ [GetAttributes_call] /\
     get_state force_update self =
       (match r with
        | Ok _ => Ok (Z.b2z (ne_int (fan_mode self') FanMode.Off))
        | Raise e => Raise e
        end, self')) /\
  (force_update = false -> _state self <> None ->
   get_state force_update self =
     (Ok (Z.b2z (ne_int (_state self) FanMode.Off)), self)) /\
  (force_update = true \/ consistent self ->
   forall r self',
     get_state force_update self = (Ok r, self') ->
     (fan_mode self' = Some (VInt FanMode.Off) -> r = 0) /\
     (forall v, fan_mode self' = Some (VInt v) -> v <> FanMode.Off -> r = 1) /\
     (fan_mode self' = None -> r = 1)).
Proof.
  split; [|split].
  - intros ->. rewrite get_state_run. simpl.
    destruct (update_attributes self) as [r self'] eqn:Hu.
    exists r, self'. split; [done|].
    split; [by eapply update_attributes_log|].
    destruct r as [[]|e]; [|done].
    by rewrite (update_attributes_ok_consistent _ _ Hu).
  - intros -> Hs. rewrite get_state_run. simpl.
    by rewrite bool_decide_false.
  - intros Hc r self' Hg.
    destruct (get_state_result _ _ _ _ Hc Hg) as [_ ->].
    split; [by intros ->|]. split; [|by intros ->].
    intros v -> Hv. simpl. by destruct (Z.eqb_spec v FanMode.Off).
Qed.

(** C5. [set_fan_mode m] sends one [SetAttributes] whose list is the
    escaped fragment of the single attribute [FanMode] with value the
    decimal string of [m] (the string [int] reads back as [m]; "4" for 4),
    and then is exactly one refresh of the object: the calls made are that
    [SetAttributes] followed by one [GetAttributes]. *)
Theorem set_fan_mode_calls self (m : Z) :
  let payload := quote_xml (single_attribute "FanMode" (Py.str m)) in
  set_fan_mode m self = update_attributes (sent self payload) /\
  (exists r self',
     set_fan_mode m self = (r, self') /\
     rpc_log self' =
       rpc_log self ++ [SetAttributes_call payload; GetAttributes_call]) /\
  Py.int (Some (Py.str m)) = Ok m /\
  single_attribute "FanMode" (Py.str 4) =
    "<attribute><name>FanMode</name><value>4</value></attribute>".
Proof.
  intros payload. split; [apply set_fan_mode_run|].
  split; [|split; [apply int_str|done]].
  rewrite set_fan_mode_run. fold payload.
  destruct (update_attributes (sent self payload)) as [r self'] eqn:Hu.
  exists r, self'. split; [done|].
  apply update_attributes_log in Hu. rewrite Hu. simpl.
  by rewrite <- app_assoc.
Qed.

Lemma unparseable_fan_mode_stores_nothing (a : Element) :
  ~ parseable_fan_mode a -> stored_at "fan_mode" a = None.
Proof.
  intros Hnp. unfold stored_at, stored.
  destruct (name_value a) as [[n t]|] eqn:Hnv; [|done].
  unfold kind_of. repeat case_bool_decide; simplify_eq; simpl; try done;
    try (by destruct (Py.float t)).
  all: destruct (Py.int t) as [z|e] eqn:E; try done.
  destruct Hnp. by exists t, z.
Qed.

(** C9. When the snapshot [get_state] answers from has no [fan_mode] key,
    [_state] is [None] and the answer is 1. It is so right after the
    refresh [get_state] makes when forced or when [_state] is unset: if the
    blob fetched has no [FanMode] attribute that converts, the decode has
    no [fan_mode] key and [get_state] returns 1. *)
Theorem unknown_fan_mode_reads_on self (force_update : bool) :
  (force_update = true \/ consistent self ->
   forall r self',
     get_state force_update self = (Ok r, self') ->
     fan_mode self' = None ->
     _state self' = None /\ r = 1) /\
  (forall blob dev attributes d,
     force_update = true \/ _state self = None ->
     GetAttributes (deviceevent self) = (Some blob, dev) ->
     fromstring (unescape blob) = Some attributes ->
     attribute_xml_to_dict blob = Ok d ->
     Forall (fun a => ~ parseable_fan_mode a) (children attributes) ->
     d !! "fan_mode" = None /\
     get_state force_update self =
       (Ok 1, mkHumidifier d None dev (rpc_log self ++ [GetAttributes_call]))).
Proof.
  split.
  - intros Hc r self' Hg Hnone.
    destruct (get_state_result _ _ _ _ Hc Hg) as [Hc' ->].
    unfold consistent in Hc'. by rewrite Hc', Hnone.
  - intros blob dev attributes d Hforce Hget Hp Hd Hall.
    assert (d !! "fan_mode" = None) as Hfm.
    { rewrite (attribute_xml_to_dict_parsed _ _ Hp) in Hd.
      rewrite (decode_attributes_lookup _ _ _ "fan_mode" Hd).
      rewrite omap_stored_nil; [done|].
      eapply Forall_impl; [exact Hall|].
      intros a. apply unparseable_fan_mode_stores_nothing. }
    split; [done|].
    rewrite get_state_run.
    assert (force_update || bool_decide (_state self = None) = true) as ->.
    { destruct Hforce as [->|Hs]; [done|].
      rewrite bool_decide_true by done. apply orb_true_r. }
    rewrite update_attributes_run, Hget. simpl. rewrite Hd. simpl.
    by rewrite Hfm.
Qed.

(** C1, as amended. A refresh replaces the snapshot: when the blob fetched
    decodes to [d], the snapshot becomes [d] itself, so a key of the prior
    snapshot that [d] lacks is gone. A push of kind [attributeList]
    merges: the keys of the delta are overwritten and every other key keeps
    its cached value. Both set [_state] to the fan mode of the new
    snapshot. *)
Theorem refresh_replaces_push_merges self :
  (forall blob dev d,
     GetAttributes (deviceevent self) = (Some blob, dev) ->
     attribute_xml_to_dict blob = Ok d ->
     update_attributes self =
       (Ok tt,
        mkHumidifier d (d !! "fan_mode") dev
          (rpc_log self ++ [GetAttributes_call]))) /\
  (forall _params d,
     attribute_xml_to_dict _params = Ok d ->
     exists self',
       subscription_update "attributeList" _params self = (Ok true, self') /\
       (forall key v, d !! key = Some v -> _attributes self' !! key = Some v) /\
       (forall key,
          d !! key = None -> _attributes self' !! key = _attributes self !! key) /\
       _state self' = fan_mode self').
Proof.
  split.
  - intros blob dev d Hget Hd.
    rewrite update_attributes_run, Hget. simpl. by rewrite Hd.
  - intros _params d Hd. rewrite subscription_update_run, Hd.
    eexists. split; [done|]. simpl. split; [|split; [|done]].
    + intros key v Hk. by apply lookup_union_Some_l.
    + intros key Hk. by apply lookup_union_r.
Qed.

End Claims.

(** ** Values that do not convert, readings of the filter *)

Lemma unparseable_filter_life_stores_nothing (a : Element) :
  ~ parseable_filter_life a -> stored_at "filter_life" a = None.
Proof.
  intros Hnp. unfold stored_at, stored.
  destruct (name_value a) as [[n t]|] eqn:Hnv; [|done].
  unfold kind_of. repeat case_bool_decide; simplify_eq; simpl; try done;
    try (by destruct (Py.int t)).
  all: destruct (Py.float t) as [x|e] eqn:E; try done.
  destruct Hnp. by exists t, x.
Qed.

Lemma parseable_filter_life_stores (a : Element) (t : option string) (raw : float) :
  name_value a = Some (Some "FilterLife", t) ->
  Py.float t = Ok raw ->
  stored_at "filter_life" a = Some (VFloat (filter_life_of raw)).
Proof.
  intros Hnv Hraw. unfold stored_at, stored. rewrite Hnv.
  change (kind_of (Some "FilterLife")) with KFilterLife. by rewrite Hraw.
Qed.

(** An attribute whose name the decoder does not know changes nothing. *)
Lemma unrecognized_name_ignored (a : Element) (n t : option string)
    (result : gmap string value) :
  name_value a = Some (n, t) ->
  kind_of n = KOther ->
  decode_attribute a result = Ok result.
Proof.
  unfold name_value. intros Hnv Hk.
  destruct (children a) as [|en [|ev rest]] eqn:Hc; try discriminate.
  injection Hnv as <- <-.
  rewrite (decode_attribute_named _ en ev rest) by done.
  unfold decode_named. by rewrite Hk.
Qed.

(** C7, as amended. An attribute with a name the decoder converts and a
    value text that does not convert stores nothing and raises nothing:
    the decode of a fragment is the decode of the fragment without that
    attribute, so every other attribute is decoded as usual, and the key
    is absent from the delta unless another attribute stores it. *)
Theorem failed_conversion_is_skipped (a : Element) (n s : string) :
  name_value a = Some (Some n, Some s) ->
  conversion_fails n s ->
  stored a = None /\
  (forall result, decode_attribute a result = Ok result) /\
  (forall before after result,
     decode_attributes (before ++ a :: after) result =
       decode_attributes (before ++ after) result) /\
  (forall `{XMLParser} xml_blob attributes before after,
     fromstring (unescape xml_blob) = Some attributes ->
     children attributes = before ++ a :: after ->
     attribute_xml_to_dict xml_blob =
       decode_attributes (before ++ after) (<["water_level" := VInt 2]> ∅) /\
     forall d key,
       attribute_xml_to_dict xml_blob = Ok d ->
       key <> "water_level" ->
       Forall (fun b => stored_at key b = None) (before ++ after) ->
       d !! key = None).
Proof.
  intros Hnv Hfail.
  assert (forall result, decode_attribute a result = Ok result) as Hstep.
  { intros result. unfold name_value in Hnv.
    destruct (children a) as [|en [|ev rest]] eqn:Hc; try discriminate.
    injection Hnv as Hen Hev.
    rewrite (decode_attribute_named _ en ev rest) by done.
    unfold decode_named, conversion_fails in *. rewrite Hen, Hev.
    destruct (kind_of (Some n)); try done; destruct Hfail as [e He];
      first [ pose proof (int_raises_ValueError _ _ He) as ->
            | pose proof (float_raises_ValueError _ _ He) as -> ];
      by rewrite He. }
  assert (forall before after result,
            decode_attributes (before ++ a :: after) result =
              decode_attributes (before ++ after) result) as Hskip.
  { intros before after result. rewrite !decode_attributes_app.
    destruct (decode_attributes before result) as [r|e]; simpl; [|done].
    by rewrite Hstep. }
  split; [|split; [done|split; [done|]]].
  - unfold stored, conversion_fails in *. rewrite Hnv.
    destruct (kind_of (Some n)); try done; destruct Hfail as [e He];
      by rewrite He.
  - intros parser xml_blob attributes before after Hp Hsplit.
    rewrite (attribute_xml_to_dict_parsed _ _ Hp), Hsplit, Hskip.
    split; [done|]. intros d key Hd Hkey Hnone.
    rewrite (decode_attributes_lookup _ _ _ key Hd).
    rewrite omap_stored_nil by done. by rewrite lookup_insert_ne.
Qed.

(** C10. An attribute named [NoWater] or [WaterAdvise] whose value text is
    not exactly "1" leaves the result as it is and does not raise: the
    decode of a fragment is the decode of the fragment without it, as for
    a name the decoder does not know ([unrecognized_name_ignored]). *)
Theorem water_override_only_at_1 (a : Element) (n : string) (t : option string) :
  name_value a = Some (Some n, t) ->
  n = "NoWater" \/ n = "WaterAdvise" ->
  t <> Some "1" ->
  (forall result, decode_attribute a result = Ok result) /\
  (forall before after result,
     decode_attributes (before ++ a :: after) result =
       decode_attributes (before ++ after) result) /\
  stored a = None.
Proof.
  intros Hnv Hn Ht.
  assert (forall result, decode_attribute a result = Ok result) as Hstep.
  { intros result. unfold name_value in Hnv.
    destruct (children a) as [|en [|ev rest]] eqn:Hc; try discriminate.
    injection Hnv as Hen Hev.
    rewrite (decode_attribute_named _ en ev rest) by done.
    unfold decode_named, text_is. rewrite Hen, Hev.
    destruct Hn as [-> | ->]; simpl; by rewrite bool_decide_false. }
  split; [done|]. split.
  - intros before after result. rewrite !decode_attributes_app.
    destruct (decode_attributes before result) as [r|e]; simpl; [|done].
    by rewrite Hstep.
  - unfold stored. rewrite Hnv.
    destruct Hn as [-> | ->]; simpl; by rewrite bool_decide_false.
Qed.

Section DecoderClaims.
Context `{XMLParser}.

(** C6, as amended. In the delta decoded from a fragment that parses,
    [filter_life] is [round((raw / 60480) * 100, 2)] for [raw] the value
    of the last [FilterLife] attribute in document order whose value text
    converts; the raw value "30240" gives 50.0. *)
Theorem filter_life_of_last_reading (xml_blob : string) (attributes : Element)
    (d : gmap string value) (before after : list Element) (a : Element)
    (t : option string) (raw : float) :
  fromstring (unescape xml_blob) = Some attributes ->
  attribute_xml_to_dict xml_blob = Ok d ->
  children attributes = before ++ a :: after ->
  name_value a = Some (Some "FilterLife", t) ->
  Py.float t = Ok raw ->
  Forall (fun b => ~ parseable_filter_life b) after ->
  d !! "filter_life" =
    Some (VFloat (Py.round
                    ((raw / Py.float_of_int 60480) * Py.float_of_int 100)%float 2))
  /\ (t = Some "30240" -> d !! "filter_life" = Some (VFloat 50%float)).
Proof.
  intros Hp Hd Hsplit Hnv Hraw Hafter.
  rewrite (attribute_xml_to_dict_parsed _ _ Hp) in Hd.
  assert (d !! "filter_life" = Some (VFloat (filter_life_of raw))) as Hfl.
  { rewrite (decode_attributes_lookup _ _ _ "filter_life" Hd), Hsplit.
    rewrite last_stored_at_split.
    - by rewrite (parseable_filter_life_stores a t raw).
    - eapply Forall_impl; [exact Hafter|].
      intros b. apply unparseable_filter_life_stores_nothing. }
  split; [done|].
  intros ->. rewrite Hfl.
  assert (raw = 30240%float) as -> by (vm_compute in Hraw; congruence).
  by vm_compute.
Qed.

End DecoderClaims.

(** A value element without text has [None] for text, and the
    [TypeError] that [float] and [int] raise on [None] is not among the
    exceptions the decoder catches: it leaves [attribute_xml_to_dict],
    where a text that does not convert ("abc") is dropped. *)
Lemma empty_value_raises_TypeError :
  @attribute_xml_to_dict simple_parser
    "<attribute><name>CurrentHumidity</name><value></value></attribute>"
  = Raise TypeError /\
  @attribute_xml_to_dict simple_parser
    "<attribute><name>FanMode</name><value/></attribute>"
  = Raise TypeError /\
  exists d,
    @attribute_xml_to_dict simple_parser
      "<attribute><name>CurrentHumidity</name><value>abc</value></attribute>"
    = Ok d /\ d !! "current_humidity" = None.
Proof.
  split; [by vm_compute|]. split; [by vm_compute|].
  eexists. split; [by vm_compute|]. by vm_compute.
Qed.

(** * The rest of the module *)

(** ** The other setters *)

Section Setters.
Context `{XMLParser} {Remote : Type} `{Collaborators Remote}.
Implicit Types self : Humidifier Remote.

Lemma set_humidity_run self (h : Z) :
  set_humidity h self =
    update_attributes
      (sent self (quote_xml (single_attribute "DesiredHumidity" (Py.str h)))).
Proof.
  unfold set_humidity, seq, call_SetAttributes, ret.
  change ("<attribute><name>DesiredHumidity</name><value>" +:+ Py.str h
          +:+ "</value></attribute>")
    with (single_attribute "DesiredHumidity" (Py.str h)).
  fold (sent self (quote_xml (single_attribute "DesiredHumidity" (Py.str h)))).
  rewrite get_state_run. simpl.
  by destruct (update_attributes _) as [[[]|e] self'].
Qed.

Lemma append_assoc (a b c : string) : (a +:+ b) +:+ c = a +:+ (b +:+ c).
Proof.
  induction a as [|x a IH]; [done|].
  change (String x ((a +:+ b) +:+ c) = String x (a +:+ (b +:+ c))).
  by f_equal.
Qed.

Lemma set_fan_mode_and_humidity_run self (m h : Z) :
  set_fan_mode_and_humidity m h self =
    update_attributes
      (sent self
         (quote_xml (single_attribute "FanMode" (Py.str m)
                     +:+ single_attribute "DesiredHumidity" (Py.str h)))).
Proof.
  unfold set_fan_mode_and_humidity, seq, call_SetAttributes, ret.
  replace ("<attribute><name>FanMode</name><value>" +:+ Py.str m
           +:+ "</value></attribute>"
           +:+ "<attribute><name>DesiredHumidity</name><value>"
           +:+ Py.str h +:+ "</value></attribute>")
    with (single_attribute "FanMode" (Py.str m)
          +:+ single_attribute "DesiredHumidity" (Py.str h)).
  - match goal with
    | |- context [quote_xml ?p] => fold (sent self (quote_xml p))
    end.
    rewrite get_state_run. simpl.
    by destruct (update_attributes _) as [[[]|e] self'].
  - unfold single_attribute.
    change ("<attribute><name>" +:+ "FanMode" +:+ "</name><value>"
            +:+ Py.str m +:+ "</value></attribute>")
      with ("<attribute><name>FanMode</name><value>"
            +:+ (Py.str m +:+ "</value></attribute>")).
    by rewrite !append_assoc.
Qed.

(** X1. [set_humidity h] sends one [SetAttributes] whose list is the
    escaped fragment of the single attribute [DesiredHumidity] with value
    the decimal string of [h], and then is exactly one refresh of the
    object. *)
Theorem set_humidity_calls self (h : Z) :
  let payload := quote_xml (single_attribute "DesiredHumidity" (Py.str h)) in
  set_humidity h self = update_attributes (sent self payload) /\
  (exists r self',
     set_humidity h self = (r, self') /\
     rpc_log self' =
       rpc_log self ++ [SetAttributes_call payload; GetAttributes_call]) /\
  Py.int (Some (Py.str h)) = Ok h.
Proof.
  intros payload. split; [apply set_humidity_run|]. split; [|apply int_str].
  rewrite set_humidity_run. fold payload.
  destruct (update_attributes (sent self payload)) as [r self'] eqn:Hu.
  exists r, self'. split; [done|].
  apply update_attributes_log in Hu. rewrite Hu. simpl.
  by rewrite <- app_assoc.
Qed.

(** X2. [set_fan_mode_and_humidity m h] sends both attributes in one
    [SetAttributes] and refreshes once: two calls on the device, where
    [set_fan_mode m] followed by [set_humidity h] makes four. *)
Theorem set_both_in_one_round_trip self (m h : Z) :
  let both := quote_xml (single_attribute "FanMode" (Py.str m)
                         +:+ single_attribute "DesiredHumidity" (Py.str h)) in
  set_fan_mode_and_humidity m h self = update_attributes (sent self both) /\
  (exists r self',
     set_fan_mode_and_humidity m h self = (r, self') /\
     rpc_log self' =
       rpc_log self ++ [SetAttributes_call both; GetAttributes_call]) /\
  (forall self1 r self2,
     set_fan_mode m self = (Ok tt, self1) ->
     set_humidity h self1 = (r, self2) ->
     rpc_log self2 =
       rpc_log self
       ++ [SetAttributes_call (quote_xml (single_attribute "FanMode" (Py.str m)));
           GetAttributes_call;
           SetAttributes_call
             (quote_xml (single_attribute "DesiredHumidity" (Py.str h)));
           GetAttributes_call]).
Proof.
  intros both. split; [apply set_fan_mode_and_humidity_run|]. split.
  - rewrite set_fan_mode_and_humidity_run. fold both.
    destruct (update_attributes (sent self both)) as [r self'] eqn:Hu.
    exists r, self'. split; [done|].
    apply update_attributes_log in Hu. rewrite Hu. simpl.
    by rewrite <- app_assoc.
  - intros self1 r self2. rewrite set_fan_mode_run, set_humidity_run.
    intros H1 H2. apply update_attributes_log in H1, H2.
    rewrite H2. simpl. rewrite H1. simpl. by rewrite <- !app_assoc.
Qed.

End Setters.

(** ** Refreshes and pushes that fail, what every method keeps *)

Section Lifecycle.
Context `{XMLParser} {Remote : Type} `{Collaborators Remote}.
Implicit Types self : Humidifier Remote.

(** X3. A refresh that raises has made its [GetAttributes] call and left
    the snapshot and [_state] as they were. It raises a [TypeError] when the
    answer has no [attributeList], a [ParseError] when the parser refuses
    the blob, and whatever the decoder raises otherwise. *)
Theorem update_attributes_failure self :
  (forall e self',
     update_attributes self = (Raise e, self') ->
     _attributes self' = _attributes self /\
     _state self' = _state self /\
     deviceevent self' = (GetAttributes (deviceevent self)).2 /\
     rpc_log self' = rpc_log self ++ [GetAttributes_call]) /\
  ((GetAttributes (deviceevent self)).1 = None ->
   exists self', update_attributes self = (Raise TypeError, self')) /\
  (forall blob,
     (GetAttributes (deviceevent self)).1 = Some blob ->
     fromstring (unescape blob) = None ->
     exists self', update_attributes self = (Raise ParseError, self')) /\
  (forall blob e,
     (GetAttributes (deviceevent self)).1 = Some blob ->
     attribute_xml_to_dict blob = Raise e ->
     exists self', update_attributes self = (Raise e, self')).
Proof.
  rewrite update_attributes_run.
  destruct (GetAttributes (deviceevent self)) as [resp dev]. simpl.
  split; [|split; [|split]].
  - intros e self'. destruct (decode_response resp); [done|].
    by intros [= <- <-].
  - intros ->. simpl. eauto.
  - intros blob -> Hp. simpl.
    rewrite (attribute_xml_to_dict_unparsed _ Hp). eauto.
  - intros blob e -> Hd. simpl. rewrite Hd. eauto.
Qed.

(** X4. A push of kind [attributeList] never calls the device; it returns
    [True] when the payload decodes, and when the decode raises the
    exception leaves with the object untouched. A push of any other kind
    is the base class's handler and nothing else. *)
Theorem subscription_update_dispatch self (_params : string) :
  (forall r self',
     subscription_update "attributeList" _params self = (r, self') ->
     rpc_log self' = rpc_log self /\
     deviceevent self' = deviceevent self /\
     (forall b, r = Ok b -> b = true) /\
     (forall e, r = Raise e ->
        self' = self /\ attribute_xml_to_dict _params = Raise e)) /\
  (forall _type,
     _type <> "attributeList" ->
     subscription_update _type _params self =
       Switch_subscription_update _type _params self).
Proof.
  split.
  - intros r self'. rewrite subscription_update_run.
    destruct (attribute_xml_to_dict _params) as [d|e]; intros [= <- <-].
    + split; [done|]. split; [done|]. split; [by intros b [= <-]|done].
    + split; [done|]. split; [done|]. split; [done|]. by intros e' [= <-].
  - intros _type Hne. unfold subscription_update.
    destruct (String.eqb_spec _type "attributeList"); done.
Qed.

Lemma set_humidity_consistent self (h : Z) r self' :
  consistent self ->
  set_humidity h self = (r, self') ->
  consistent self'.
Proof.
  intros Hc. rewrite set_humidity_run. by apply update_attributes_consistent.
Qed.

Lemma set_fan_mode_and_humidity_consistent self (m h : Z) r self' :
  consistent self ->
  set_fan_mode_and_humidity m h self = (r, self') ->
  consistent self'.
Proof.
  intros Hc. rewrite set_fan_mode_and_humidity_run.
  by apply update_attributes_consistent.
Qed.

(** X5. [_state] is the cached fan mode: [__init__] establishes it, and
    [update_attributes], a push of kind [attributeList], [get_state] and
    the four setters keep it, whether they return or raise. *)
Theorem state_mirrors_fan_mode self :
  (forall self', __init__ self = (Ok tt, self') -> consistent self') /\
  (consistent self ->
   (forall r self', update_attributes self = (r, self') -> consistent self') /\
   (forall _params r self',
      subscription_update "attributeList" _params self = (r, self') ->
      consistent self') /\
   (forall force_update r self',
      get_state force_update self = (r, self') -> consistent self') /\
   (forall state r self', set_state state self = (r, self') -> consistent self') /\
   (forall m r self', set_fan_mode m self = (r, self') -> consistent self') /\
   (forall h r self', set_humidity h self = (r, self') -> consistent self') /\
   (forall m h r self',
      set_fan_mode_and_humidity m h self = (r, self') -> consistent self')).
Proof.
  split; [apply init_consistent|]. intros Hc. repeat split.
  - intros r self'. by apply update_attributes_consistent.
  - intros p r self'. by apply subscription_update_consistent.
  - intros f r self'. by apply get_state_consistent.
  - intros s r self'. by apply set_state_consistent.
  - intros m r self'. by apply set_fan_mode_consistent.
  - intros h r self'. by apply set_humidity_consistent.
  - intros m h r self'. by apply set_fan_mode_and_humidity_consistent.
Qed.


(** X7. Once [get_state] has returned from an object whose fan mode is
    cached, asking again without [force_update] gives the same answer,
    calls nothing and changes nothing. While [_state] is [None], every
    unforced [get_state] makes one [GetAttributes] call. *)
Theorem get_state_settles self (force_update : bool) :
  (force_update = true \/ consistent self ->
   forall r self',
     get_state force_update self = (Ok r, self') ->
     fan_mode self' <> None ->
     get_state false self' = (Ok r, self')) /\
  (_state self = None ->
   forall r self',
     get_state false self = (r, self') ->
     rpc_log self' = rpc_log self ++ [GetAttributes_call]).
Proof.
  split.
  - intros Hc r self' Hg Hfm.
    destruct (get_state_result _ _ _ _ Hc Hg) as [Hc' ->].
    rewrite get_state_run. simpl.
    rewrite bool_decide_false by (by rewrite Hc'). by rewrite Hc'.
  - intros Hs r self'. rewrite get_state_run. simpl.
    rewrite bool_decide_true by done.
    destruct (update_attributes self) as [[[]|e] self1] eqn:Hu;
      intros [= <- <-]; by eapply update_attributes_log.
Qed.

End Lifecycle.

(** ** The decoder: what a delta holds, what can be raised *)

Lemma stored_field_ok (a : Element) (k : string) (v : value) :
  stored a = Some (k, v) -> field_ok k v.
Proof.
  unfold stored, field_ok.
  destruct (name_value a) as [[n t]|]; [|done].
  destruct (kind_of n);
    try (destruct (Py.int t) as [z|e]; [|done]);
    try (destruct (Py.float t) as [x|e]; [|done]);
    try case_bool_decide; intros [= <- <-]; try done.
  - right. left. split; [by left|]. by eexists.
  - right. left. split; [by right|]. by eexists.
  - right. right. left. split; [by left|]. by eexists.
  - left. split; [done|]. exists 0. by split.
  - left. split; [done|]. exists 1. by split.
  - right. right. left. split; [by right|]. by eexists.
  - right. right. right. split; [done|]. by eexists.
Qed.

Lemma fold_store_field_ok (attributes : list Element)
    (result : gmap string value) :
  map_Forall field_ok result ->
  map_Forall field_ok
    (fold_left (fun d a => store d (stored a)) attributes result).
Proof.
  revert result. induction attributes as [|a rest IH]; intros result Hr;
    [done|].
  cbn [fold_left]. apply IH.
  destruct (stored a) as [[k v]|] eqn:Hs; simpl; [|done].
  apply map_Forall_insert_2; [|done]. by apply (stored_field_ok a).
Qed.

(** The only exception one attribute can raise from the decoder is an
    [IndexError], for a missing child, or a [TypeError], for a value
    element without text. *)
Lemma decode_attribute_raises (a : Element) (result : gmap string value)
    (e : exn) :
  decode_attribute a result = Raise e ->
  e = IndexError \/ e = TypeError.
Proof.
  destruct (children a) as [|en [|ev rest]] eqn:Hc.
  - rewrite decode_attribute_none by done. intros [= <-]. by left.
  - rewrite (decode_attribute_name_only _ en) by done.
    destruct (kind_of (text en)); intros [= <-]; by left.
  - destruct (text ev) as [s|] eqn:Hev.
    + rewrite decode_attribute_complete; [done|].
      exists (text en), s. unfold name_value. by rewrite Hc, Hev.
    + rewrite (decode_attribute_named _ en ev rest) by done.
      unfold decode_named, text_is. rewrite Hev.
      destruct (kind_of (text en)); cbn; intros [= <-]; by right.
Qed.

Lemma decode_attributes_raises (attributes : list Element)
    (result : gmap string value) (e : exn) :
  decode_attributes attributes result = Raise e ->
  e = IndexError \/ e = TypeError.
Proof.
  revert result. induction attributes as [|a rest IH]; intros result; simpl;
    [done|].
  destruct (decode_attribute a result) as [r|e'] eqn:Ha; simpl.
  - apply IH.
  - intros [= <-]. by eapply decode_attribute_raises.
Qed.

Ltac field_cases a :=
  unfold stored_at, stored, int_attr, float_attr;
  destruct (name_value a) as [[n t]|]; [|done];
  unfold kind_of;
  repeat (case_bool_decide; simplify_eq; try done);
  try (by destruct (Py.int t));
  try (by destruct (Py.float t)).

Lemma stored_at_fan_mode (a : Element) :
  stored_at "fan_mode" a = VInt <$> int_attr "FanMode" a.
Proof. field_cases a. Qed.

Lemma stored_at_desired_humidity (a : Element) :
  stored_at "desired_humidity" a = VInt <$> int_attr "DesiredHumidity" a.
Proof. field_cases a. Qed.

Lemma stored_at_current_humidity (a : Element) :
  stored_at "current_humidity" a = VFloat <$> float_attr "CurrentHumidity" a.
Proof. field_cases a. Qed.

Lemma stored_at_filter_expired (a : Element) :
  stored_at "filter_expired" a =
    (fun z => VBool (negb (z =? 0))) <$> int_attr "ExpiredFilterTime" a.
Proof. field_cases a. Qed.

Lemma omap_stored_at_as (key : string) {A : Type} (f : A -> value)
    (g : Element -> option A) (attributes : list Element) :
  (forall a, stored_at key a = f <$> g a) ->
  omap (stored_at key) attributes = f <$> omap g attributes.
Proof.
  intros Hg. rewrite list_fmap_omap. apply list_omap_ext.
  induction attributes; constructor; [apply Hg|done].
Qed.

(** What a decode that returns holds under a key other than
    [water_level]: the last value stored under it. *)
Lemma decoded_field (key : string) {A : Type} (f : A -> value)
    (g : Element -> option A) (attributes : list Element)
    (d : gmap string value) :
  key <> "water_level" ->
  (forall a, stored_at key a = f <$> g a) ->
  decode_attributes attributes (<["water_level" := VInt 2]> ∅) = Ok d ->
  d !! key = f <$> last (omap g attributes).
Proof.
  intros Hk Hg Hd.
  rewrite (decode_attributes_lookup _ _ _ key Hd).
  rewrite (omap_stored_at_as key f g) by done. rewrite fmap_last.
  destruct (last (omap g attributes)); [done|].
  by rewrite lookup_insert_ne, lookup_empty.
Qed.

Lemma kind_of_unknown (n : option string) :
  (forall name, name ∈ known_names -> n <> Some name) ->
  kind_of n = KOther.
Proof.
  intros Hn. unfold kind_of.
  repeat case_bool_decide; try done; exfalso;
    match goal with
    | E : n = Some ?x |- _ => apply (Hn x); [|exact E]
    end;
    unfold known_names;
    repeat first [apply list_elem_of_here | apply list_elem_of_further].
Qed.

Lemma kind_of_known (name : string) :
  name ∈ known_names -> kind_of (Some name) <> KOther.
Proof.
  unfold known_names. rewrite !elem_of_cons, elem_of_nil.
  intros [->|[->|[->|[->|[->|[->|[->|[]]]]]]]]; done.
Qed.

(** An attribute the decoder returns from does the same to every result. *)
Lemma decode_attribute_any_result (a : Element)
    (r1 r1' r2 : gmap string value) :
  decode_attribute a r1 = Ok r1' ->
  decode_attribute a r2 = Ok (store r2 (stored a)).
Proof.
  destruct (children a) as [|en [|ev rest]] eqn:Hc.
  - by rewrite decode_attribute_none.
  - rewrite !(decode_attribute_name_only _ en) by done.
    unfold stored, name_value. rewrite Hc.
    by destruct (kind_of (text en)).
  - destruct (text ev) as [s|] eqn:Hev.
    + intros _. apply decode_attribute_complete.
      exists (text en), s. unfold name_value. by rewrite Hc, Hev.
    + rewrite !(decode_attribute_named _ en ev rest) by done.
      unfold stored, name_value, decode_named, text_is. rewrite Hc, Hev.
      destruct (kind_of (text en)); cbn; done.
Qed.

Section DecoderFacts.
Context `{XMLParser}.

Lemma attribute_xml_to_dict_field_ok (xml_blob : string)
    (d : gmap string value) :
  attribute_xml_to_dict xml_blob = Ok d ->
  forall key v, d !! key = Some v -> field_ok key v.
Proof.
  unfold attribute_xml_to_dict.
  destruct (fromstring (unescape xml_blob)) as [attributes|]; [|done].
  intros Hd. apply decode_attributes_stored in Hd. subst d.
  apply fold_store_field_ok. apply map_Forall_insert_2; [|done].
  left. split; [done|]. exists 2. by split.
Qed.

(** X8. A delta the decoder returns holds only the six keys of the
    snapshot, each with a value of its type: [water_level] an integer from
    0 to 2, [fan_mode] and [desired_humidity] integers, [current_humidity]
    and [filter_life] floats, [filter_expired] a boolean. *)
Theorem delta_is_well_formed (xml_blob : string) (d : gmap string value) :
  attribute_xml_to_dict xml_blob = Ok d ->
  (forall key v, d !! key = Some v -> field_ok key v) /\
  dom d ⊆ ({["water_level"; "fan_mode"; "desired_humidity";
            "current_humidity"; "filter_life"; "filter_expired"]}
           : gset string).
Proof.
  intros Hd. pose proof (attribute_xml_to_dict_field_ok _ _ Hd) as Hall.
  split; [exact Hall|].
  intros key [v Hv]%elem_of_dom. specialize (Hall key v Hv).
  rewrite !elem_of_union, !elem_of_singleton.
  unfold field_ok in Hall. tauto.
Qed.

(** X9. The decoder never lets a [ValueError] out: it raises a
    [ParseError] exactly when the parser refuses the blob, and otherwise
    only an [IndexError] or a [TypeError]. *)
Theorem decoder_exceptions (xml_blob : string) (e : exn) :
  attribute_xml_to_dict xml_blob = Raise e ->
  e <> ValueError /\
  (e = ParseError <-> fromstring (unescape xml_blob) = None) /\
  (e = ParseError \/ e = IndexError \/ e = TypeError).
Proof.
  unfold attribute_xml_to_dict.
  destruct (fromstring (unescape xml_blob)) as [attributes|].
  - intros [-> | ->]%decode_attributes_raises; repeat split; try done; auto.
  - intros [= <-]. repeat split; try done; auto.
Qed.


(** X10. In the delta decoded from a fragment that parses, [fan_mode] and
    [desired_humidity] are the integers of the last [FanMode] and
    [DesiredHumidity] attributes whose value converts, [current_humidity]
    the float of the last such [CurrentHumidity], and [filter_expired]
    whether the integer of the last such [ExpiredFilterTime] is not zero;
    a key with no such attribute is absent. *)
Theorem decoded_typed_fields (xml_blob : string) (attributes : Element)
    (d : gmap string value) :
  fromstring (unescape xml_blob) = Some attributes ->
  attribute_xml_to_dict xml_blob = Ok d ->
  d !! "fan_mode" =
    VInt <$> last (omap (int_attr "FanMode") (children attributes)) /\
  d !! "desired_humidity" =
    VInt <$> last (omap (int_attr "DesiredHumidity") (children attributes)) /\
  d !! "current_humidity" =
    VFloat <$> last (omap (float_attr "CurrentHumidity") (children attributes)) /\
  d !! "filter_expired" =
    (fun z => VBool (negb (z =? 0)))
      <$> last (omap (int_attr "ExpiredFilterTime") (children attributes)).
Proof.
  intros Hp Hd. rewrite (attribute_xml_to_dict_parsed _ _ Hp) in Hd.
  split; [|split; [|split]].
  - by apply (decoded_field "fan_mode" VInt); [|apply stored_at_fan_mode|].
  - by apply (decoded_field "desired_humidity" VInt);
      [|apply stored_at_desired_humidity|].
  - by apply (decoded_field "current_humidity" VFloat);
      [|apply stored_at_current_humidity|].
  - by apply (decoded_field "filter_expired" (fun z => VBool (negb (z =? 0))));
      [|apply stored_at_filter_expired|].
Qed.

End DecoderFacts.

(** X11. An attribute element whose first child is not one of the seven
    names the decoder knows is skipped, with or without a value child: the
    fragment decodes, or raises, as it does without that element. *)
Theorem unknown_attribute_is_skipped (a en : Element) (others : list Element) :
  children a = en :: others ->
  (forall name, name ∈ known_names -> text en <> Some name) ->
  forall (before after : list Element) (result : gmap string value),
    decode_attributes (before ++ a :: after) result =
      decode_attributes (before ++ after) result.
Proof.
  intros Hc Hn before after result.
  assert (forall r, decode_attribute a r = Ok r) as Hskip.
  { intros r. pose proof (kind_of_unknown _ Hn) as Hk.
    destruct others as [|ev rest].
    - rewrite (decode_attribute_name_only _ en) by done. by rewrite Hk.
    - rewrite (decode_attribute_named _ en ev rest) by done.
      unfold decode_named. by rewrite Hk. }
  rewrite !decode_attributes_app.
  destruct (decode_attributes before result) as [r|e]; simpl; [|done].
  by rewrite Hskip.
Qed.

Section DecoderEdges.
Context `{XMLParser}.

(** X12. An attribute element with no child, or with one of the seven
    known names and no second child, makes the decoder raise an
    [IndexError] as soon as the loop reaches it. *)
Theorem truncated_attribute_raises_IndexError (xml_blob : string)
    (attributes a : Element) (before after : list Element)
    (d : gmap string value) :
  fromstring (unescape xml_blob) = Some attributes ->
  children attributes = before ++ a :: after ->
  decode_attributes before (<["water_level" := VInt 2]> ∅) = Ok d ->
  children a = [] \/
    (exists en name,
       children a = [en] /\ text en = Some name /\ name ∈ known_names) ->
  attribute_xml_to_dict xml_blob = Raise IndexError.
Proof.
  intros Hp Hsplit Hbefore Ha.
  rewrite (attribute_xml_to_dict_parsed _ _ Hp), Hsplit, decode_attributes_app.
  rewrite Hbefore. simpl.
  destruct Ha as [Hc | (en & name & Hc & Hn & Hk)].
  - by rewrite decode_attribute_none.
  - rewrite (decode_attribute_name_only _ en) by done. rewrite Hn.
    pose proof (kind_of_known _ Hk).
    by destruct (kind_of (Some name)).
Qed.

(** X13. A value element without text under one of the five names whose
    value the decoder converts makes it raise a [TypeError] as soon as the
    loop reaches it; under [NoWater] or [WaterAdvise] it is compared, not
    converted, and the attribute is skipped. *)
Theorem missing_value_text_raises_TypeError (xml_blob : string)
    (attributes a : Element) (before after : list Element)
    (d : gmap string value) (name : string) :
  fromstring (unescape xml_blob) = Some attributes ->
  children attributes = before ++ a :: after ->
  decode_attributes before (<["water_level" := VInt 2]> ∅) = Ok d ->
  name_value a = Some (Some name, None) ->
  (name ∈ converted_names ->
   attribute_xml_to_dict xml_blob = Raise TypeError) /\
  (name = "NoWater" \/ name = "WaterAdvise" ->
   attribute_xml_to_dict xml_blob = decode_attributes after d).
Proof.
  intros Hp Hsplit Hbefore Hnv.
  rewrite (attribute_xml_to_dict_parsed _ _ Hp), Hsplit, decode_attributes_app.
  rewrite Hbefore. simpl.
  unfold name_value in Hnv.
  destruct (children a) as [|en [|ev rest]] eqn:Hc; try discriminate.
  injection Hnv as Hn Hv.
  rewrite (decode_attribute_named _ en ev rest) by done.
  unfold decode_named, text_is. rewrite Hn, Hv. split.
  - unfold converted_names. rewrite !elem_of_cons, elem_of_nil.
    intros [->|[->|[->|[->|[->|[]]]]]]; done.
  - intros [-> | ->]; done.
Qed.

End DecoderEdges.

(** Two neighbouring attributes that the decoder returns from and that
    store under different keys, or store nothing, can change places. *)
Lemma neighbours_commute (a b : Element)
    (before after : list Element) (result d : gmap string value) :
  (forall ka va kb vb,
     stored a = Some (ka, va) -> stored b = Some (kb, vb) -> ka <> kb) ->
  decode_attributes (before ++ a :: b :: after) result = Ok d ->
  decode_attributes (before ++ b :: a :: after) result = Ok d.
Proof.
  intros Hne. rewrite !decode_attributes_app.
  destruct (decode_attributes before result) as [r|e]; simpl; [|done].
  destruct (decode_attribute a r) as [ra|e] eqn:Ha; simpl; [|done].
  destruct (decode_attribute b ra) as [rb|e] eqn:Hb; simpl; [|done].
  pose proof (decode_attribute_stored _ _ _ Ha) as ->.
  pose proof (decode_attribute_stored _ _ _ Hb) as ->.
  rewrite (decode_attribute_any_result b _ _ r Hb). simpl.
  rewrite (decode_attribute_any_result a _ _ (store r (stored b)) Ha). simpl.
  replace (store (store r (stored b)) (stored a))
    with (store (store r (stored a)) (stored b)); [done|].
  destruct (stored a) as [[ka va]|], (stored b) as [[kb vb]|]; simpl; try done.
  apply insert_insert_ne. intros ->. by eapply Hne.
Qed.

(** The key an attribute stores under is decided by its name. *)
Lemma stored_key (a : Element) (n t : option string) (k : string) (v : value) :
  name_value a = Some (n, t) ->
  stored a = Some (k, v) ->
  match kind_of n with
  | KFanMode => k = "fan_mode"
  | KDesiredHumidity => k = "desired_humidity"
  | KCurrentHumidity => k = "current_humidity"
  | KNoWater | KWaterAdvise => k = "water_level"
  | KFilterLife => k = "filter_life"
  | KExpiredFilterTime => k = "filter_expired"
  | KOther => False
  end.
Proof.
  unfold stored. intros ->.
  destruct (kind_of n), (Py.int t), (Py.float t); try case_bool_decide;
    intros Heq; by simplify_eq.
Qed.

Lemma kind_of_inj (n1 n2 : string) :
  kind_of (Some n1) = kind_of (Some n2) ->
  kind_of (Some n1) <> KOther ->
  n1 = n2.
Proof.
  unfold kind_of. repeat case_bool_decide; simplify_eq; done.
Qed.

(** X14. Two neighbouring attributes with different names, not both among
    [NoWater] and [WaterAdvise], can change places: when the fragment
    decodes, it decodes to the same delta with the two in the other
    order. *)
Theorem attributes_of_different_names_commute (a b : Element)
    (na nb : string) (ta tb : option string)
    (before after : list Element) (result d : gmap string value) :
  name_value a = Some (Some na, ta) ->
  name_value b = Some (Some nb, tb) ->
  na <> nb ->
  ~ (na ∈ ["NoWater"; "WaterAdvise"] /\ nb ∈ ["NoWater"; "WaterAdvise"]) ->
  decode_attributes (before ++ a :: b :: after) result = Ok d ->
  decode_attributes (before ++ b :: a :: after) result = Ok d.
Proof.
  intros Ha Hb Hne Hwater. apply neighbours_commute.
  intros ka va kb vb Hsa Hsb ->.
  pose proof (stored_key _ _ _ _ _ Ha Hsa) as Hka.
  pose proof (stored_key _ _ _ _ _ Hb Hsb) as Hkb.
  destruct (kind_of (Some na)) eqn:Ea; try done;
    destruct (kind_of (Some nb)) eqn:Eb; try done; subst kb; try done;
    try (apply Hne, kind_of_inj; [congruence|by rewrite Ea]).
  all: apply Hwater; unfold kind_of in Ea, Eb;
    repeat case_bool_decide; simplify_eq;
    split; repeat first [apply list_elem_of_here | apply list_elem_of_further].
Qed.

(** ** Escaped and plain angle brackets *)

Lemma append_cons (c : ascii) (a b : string) :
  String c a +:+ b = String c (a +:+ b).
Proof. reflexivity. Qed.

Lemma append_nil_l (a : string) : EmptyString +:+ a = a.
Proof. reflexivity. Qed.

Lemma replace_from_cons (old new : string) (c : ascii) (rest : string) :
  Py.replace_from old new 0 (String c rest) =
    if String.prefix old (String c rest)
    then new +:+ Py.replace_from old new (String.length old - 1) rest
    else String c (Py.replace_from old new 0 rest).
Proof. reflexivity. Qed.

Lemma prefix_nil (s : string) : String.prefix EmptyString s = true.
Proof. by destruct s. Qed.

Lemma prefix_append (a s : string) : String.prefix a (a +:+ s) = true.
Proof.
  induction a as [|c a IH]; [by destruct s|].
  rewrite append_cons. cbn [String.prefix]. by destruct (ascii_dec c c).
Qed.

Section Entity.
Variables p1 p2 p3 r : ascii.
Hypothesis p1_amp : p1 <> "&"%char.
Hypothesis p2_amp : p2 <> "&"%char.
Hypothesis p3_amp : p3 <> "&"%char.

Let tail : string := String p1 (String p2 (String p3 EmptyString)).
Let old : string := String "&" tail.
Let new : string := String r EmptyString.

Lemma replace_other (c : ascii) (s : string) :
  c <> "&"%char ->
  Py.replace (String c s) old new = String c (Py.replace s old new).
Proof.
  intros Hc. unfold Py.replace, old. rewrite replace_from_cons.
  cbn [String.prefix]. by destruct (ascii_dec "&" c) as [<-|_].
Qed.

Lemma replace_entity (s : string) :
  Py.replace (String "&" (String p1 (String p2 (String p3 s)))) old new =
    String r (Py.replace s old new).
Proof.
  unfold Py.replace. rewrite replace_from_cons.
  change (String "&" (String p1 (String p2 (String p3 s)))) with (old +:+ s).
  by rewrite prefix_append.
Qed.

Lemma replace_amp (s : string) :
  String.prefix tail s = false ->
  Py.replace (String "&" s) old new = String "&" (Py.replace s old new).
Proof.
  intros Hp. unfold Py.replace, old. rewrite replace_from_cons.
  change (String.prefix (String "&" tail) (String "&" s))
    with (if ascii_dec "&" "&" then String.prefix tail s else false).
  rewrite Hp. by destruct (ascii_dec "&" "&").
Qed.

Lemma prefix_tail_inv (s : string) :
  String.prefix tail s = true -> exists s', s = tail +:+ s'.
Proof.
  unfold tail. destruct s as [|c1 [|c2 [|c3 s']]]; cbn [String.prefix];
    try done; repeat (destruct (ascii_dec _ _); try done).
  intros _. subst. by exists s'.
Qed.

Lemma prefix_tail_app (x y : string) :
  starts_clear p1 p2 p3 y ->
  String.prefix tail (x +:+ y) = String.prefix tail x.
Proof.
  unfold tail, starts_clear.
  destruct x as [|c1 [|c2 [|c3 x']]]; rewrite ?append_cons, ?append_nil_l;
    destruct y as [|c y']; cbn [String.prefix]; intros Hy; try done;
    repeat (destruct (ascii_dec _ _); try done); subst;
    rewrite ?prefix_nil; try done;
    destruct Hy as (? & ? & ?); congruence.
Qed.

Lemma replace_app_clear (x y : string) :
  starts_clear p1 p2 p3 y ->
  Py.replace (x +:+ y) old new =
    Py.replace x old new +:+ Py.replace y old new.
Proof.
  intros Hy.
  remember (String.length x) as n eqn:Hn.
  revert x Hn. induction (lt_wf n) as [n _ IH]. intros x ->.
  destruct x as [|c x']; [done|].
  rewrite append_cons.
  destruct (ascii_dec c "&") as [->|Hc].
  - destruct (String.prefix tail x') eqn:Hp.
    + apply prefix_tail_inv in Hp as [x'' ->].
      unfold tail. rewrite !append_cons, !append_nil_l.
      rewrite !replace_entity, append_cons. f_equal.
      apply (IH (String.length x'')); [|done].
      unfold tail. rewrite !append_cons, append_nil_l. simpl. lia.
    + rewrite !replace_amp by (by rewrite ?prefix_tail_app).
      rewrite append_cons. f_equal.
      apply (IH (String.length x')); [|done]. simpl. lia.
  - rewrite !replace_other by done. rewrite append_cons. f_equal.
    apply (IH (String.length x')); [|done]. simpl. lia.
Qed.

End Entity.

Lemma replace_gt_app (x y : string) :
  starts_markup y ->
  Py.replace (x +:+ y) "&gt;" ">" =
    Py.replace x "&gt;" ">" +:+ Py.replace y "&gt;" ">".
Proof.
  intros Hy. apply (replace_app_clear "g" "t" ";" ">"); try done.
  destruct y as [|c y']; [done|]. by destruct Hy as [->|[->| ->]].
Qed.

Lemma replace_lt_app (x y : string) :
  starts_markup y ->
  Py.replace (x +:+ y) "&lt;" "<" =
    Py.replace x "&lt;" "<" +:+ Py.replace y "&lt;" "<".
Proof.
  intros Hy. apply (replace_app_clear "l" "t" ";" "<"); try done.
  destruct y as [|c y']; [done|]. by destruct Hy as [->|[->| ->]].
Qed.

Lemma restore_angles_escape (s : string) :
  forall q w : string,
    restore_angles (q +:+ escape_angles s +:+ w) =
    restore_angles (q +:+ s +:+ w).
Proof.
  unfold restore_angles.
  induction s as [|c s IH]; intros q w; [done|].
  cbn [escape_angles].
  destruct (Ascii.eqb_spec c "<") as [->|Hlt];
    [|destruct (Ascii.eqb_spec c ">") as [->|Hgt]].
  - rewrite append_assoc, !append_cons, append_nil_l.
    rewrite !replace_gt_app by (simpl; auto).
    rewrite (replace_amp "g" "t" ";" ">") by done.
    rewrite !(replace_other "g" "t" ";" ">") by done.
    rewrite !replace_lt_app by (simpl; auto).
    rewrite (replace_entity "l" "t" ";" "<" (Py.replace _ _ _)).
    rewrite (replace_other "l" "t" ";" "<") by done.
    f_equal. f_equal. apply (IH EmptyString w).
  - rewrite append_assoc, !append_cons, append_nil_l.
    rewrite !replace_gt_app by (simpl; auto).
    rewrite (replace_entity "g" "t" ";" ">" (escape_angles s +:+ w)).
    rewrite (replace_other "g" "t" ";" ">") by done.
    rewrite !replace_lt_app by (simpl; auto).
    rewrite !(replace_other "l" "t" ";" "<") by done.
    f_equal. f_equal. apply (IH EmptyString w).
  - rewrite !append_cons.
    pose proof (IH (q +:+ String c EmptyString) w) as IH'.
    by rewrite !append_assoc in IH'.
Qed.

Lemma unescape_escape_angles (xml_blob : string) :
  unescape (escape_angles xml_blob) = unescape xml_blob.
Proof.
  apply (restore_angles_escape xml_blob "<attributes>" "</attributes>").
Qed.

(** X15. The decoder does not tell a blob whose angle brackets are written
    [&lt;] and [&gt;] from the same blob with plain brackets: the parser is
    handed the same text, and the result is the same. *)
Theorem escaped_brackets_decode_alike `{XMLParser} (xml_blob : string) :
  unescape (escape_angles xml_blob) = unescape xml_blob /\
  attribute_xml_to_dict (escape_angles xml_blob) =
    attribute_xml_to_dict xml_blob.
Proof.
  pose proof (unescape_escape_angles xml_blob) as Hu.
  split; [done|]. unfold attribute_xml_to_dict. by rewrite Hu.
Qed.

(** ** What the decoder looks at *)

Lemma decode_attribute_by_texts (a : Element) (n t : option string)
    (result : gmap string value) :
  name_value a = Some (n, t) ->
  decode_attribute a result =
    decode_named (Elem "name" n []) (Elem "value" t []) result.
Proof.
  unfold name_value. intros Hnv.
  destruct (children a) as [|en [|ev rest]] eqn:Hc; try discriminate.
  injection Hnv as <- <-.
  rewrite (decode_attribute_named _ en ev rest) by done.
  by destruct en, ev.
Qed.

Lemma decode_attribute_returns_iff (a : Element)
    (result : gmap string value) :
  (exists result', decode_attribute a result = Ok result') <-> accepted a.
Proof.
  unfold accepted.
  destruct (children a) as [|en [|ev rest]] eqn:Hc.
  - rewrite decode_attribute_none by done. split; [by intros [? ?]|done].
  - rewrite (decode_attribute_name_only _ en) by done. split.
    + intros [r' Hr] name Hin Heq. rewrite Heq in Hr.
      pose proof (kind_of_known _ Hin). by destruct (kind_of (Some name)).
    + intros Hn. rewrite (kind_of_unknown _ Hn). eauto.
  - destruct (text ev) as [s|] eqn:Hev.
    + split; [done|]. intros _. rewrite decode_attribute_complete; [eauto|].
      exists (text en), s. unfold name_value. by rewrite Hc, Hev.
    + rewrite (decode_attribute_named _ en ev rest) by done.
      unfold decode_named, text_is. rewrite Hev. split.
      * intros [r' Hr] _ name Hin Heq. rewrite Heq in Hr. revert Hin.
        unfold converted_names. rewrite !elem_of_cons, elem_of_nil.
        intros [->|[->|[->|[->|[->|[]]]]]]; done.
      * intros Hn. specialize (Hn eq_refl).
        destruct (kind_of (text en)) eqn:Ek; cbn; eauto; exfalso;
          unfold kind_of in Ek; repeat case_bool_decide; simplify_eq;
          match goal with
          | E : text en = Some ?x |- _ => apply (Hn x); [|exact E]
          end;
          unfold converted_names;
          repeat first [apply list_elem_of_here | apply list_elem_of_further].
Qed.

Lemma decode_attributes_returns_iff (attributes : list Element)
    (result : gmap string value) :
  (exists result', decode_attributes attributes result = Ok result')
  <-> Forall accepted attributes.
Proof.
  revert result. induction attributes as [|a rest IH]; intros result; simpl.
  - split; [by constructor|eauto].
  - rewrite Forall_cons, <- (decode_attribute_returns_iff a result).
    destruct (decode_attribute a result) as [r|e]; simpl.
    + rewrite (IH r). split; [eauto|tauto].
    + split; [by intros [? ?]|by intros [[? ?] _]].
Qed.

Section DecoderInputs.
Context `{XMLParser}.

(** X16. The decoder returns exactly when the parser accepts the blob and
    every attribute element has a first child, a second one unless its
    name is none of the seven known ones, and a value text unless its name
    is none of the five converted ones. *)
Theorem decoder_returns_iff (xml_blob : string) :
  (exists d, attribute_xml_to_dict xml_blob = Ok d) <->
  (exists attributes,
     fromstring (unescape xml_blob) = Some attributes /\
     Forall accepted (children attributes)).
Proof.
  unfold attribute_xml_to_dict.
  destruct (fromstring (unescape xml_blob)) as [attributes|].
  - rewrite decode_attributes_returns_iff. split.
    + intros Hall. by exists attributes.
    + by intros (? & [= <-] & Hall).
  - split; [by intros [? ?]|by intros (? & ? & _)].
Qed.

(** X17. The decoder reads positions, not tags: two fragments whose
    attribute elements have, pairwise, the same texts in their first two
    children decode alike, whatever the tags, the further children and
    the texts elsewhere. *)
Theorem decoder_reads_positions_not_tags (blob1 blob2 : string)
    (root1 root2 : Element) :
  fromstring (unescape blob1) = Some root1 ->
  fromstring (unescape blob2) = Some root2 ->
  Forall2 same_texts (children root1) (children root2) ->
  attribute_xml_to_dict blob1 = attribute_xml_to_dict blob2.
Proof.
  intros H1 H2 Hsame.
  rewrite (attribute_xml_to_dict_parsed _ _ H1),
    (attribute_xml_to_dict_parsed _ _ H2).
  generalize (<["water_level" := VInt 2]> (∅ : gmap string value)).
  induction Hsame as [|a b l1 l2 [Hnv Hsome] _ IH]; intros result; [done|].
  simpl. destruct (name_value a) as [[n t]|] eqn:Ha; [|done].
  rewrite (decode_attribute_by_texts a n t) by done.
  rewrite (decode_attribute_by_texts b n t) by done.
  destruct (decode_named _ _ result); simpl; [apply IH|done].
Qed.

(** X18. What the setters write, the decoder reads back: the fragment of
    [FanMode] and [DesiredHumidity] with the decimal strings of [m] and
    [h], with its angle brackets escaped, once the parser has given its
    two attributes, decodes to fan mode [m] and desired humidity [h]. *)
Theorem setter_payload_decodes_back (m h : Z) (attributes : Element) :
  let fragment :=
    single_attribute "FanMode" (Py.str m)
    +:+ single_attribute "DesiredHumidity" (Py.str h) in
  fromstring (unescape fragment) = Some attributes ->
  name_value <$> children attributes =
    [Some (Some "FanMode", Some (Py.str m));
     Some (Some "DesiredHumidity", Some (Py.str h))] ->
  attribute_xml_to_dict (escape_angles fragment) =
    Ok (<["desired_humidity" := VInt h]>
          (<["fan_mode" := VInt m]> (<["water_level" := VInt 2]> ∅))).
Proof.
  intros fragment Hp Hnv.
  unfold attribute_xml_to_dict. rewrite unescape_escape_angles, Hp.
  destruct (children attributes) as [|a [|b [|c rest]]]; try discriminate.
  injection Hnv as Ha Hb.
  simpl.
  rewrite (decode_attribute_by_texts a _ _ _ Ha). unfold decode_named.
  change (kind_of (text (Elem "name" (Some "FanMode") []))) with KFanMode.
  cbn [text]. rewrite try_set_int, int_str. simpl.
  rewrite (decode_attribute_by_texts b _ _ _ Hb). unfold decode_named.
  change (kind_of (text (Elem "name" (Some "DesiredHumidity") [])))
    with KDesiredHumidity.
  cbn [text]. by rewrite try_set_int, int_str.
Qed.

End DecoderInputs.

(** ** The snapshot between calls *)

Section Snapshot.
Context `{XMLParser} {Remote : Type} `{Collaborators Remote}.
Implicit Types self : Humidifier Remote.

(** After a refresh the snapshot is the old one, when the refresh raised,
    or the decode of what the device answered. *)
Lemma update_attributes_snapshot self r self' :
  update_attributes self = (r, self') ->
  (exists e, r = Raise e /\ _attributes self' = _attributes self) \/
  (exists blob,
     r = Ok tt /\
     (GetAttributes (deviceevent self)).1 = Some blob /\
     attribute_xml_to_dict blob = Ok (_attributes self')).
Proof.
  rewrite update_attributes_run.
  destruct (GetAttributes (deviceevent self)) as [[blob|] dev]; simpl.
  - destruct (attribute_xml_to_dict blob) as [d|e] eqn:Hd; intros [= <- <-].
    + right. by exists blob.
    + left. by exists e.
  - intros [= <- <-]. left. by exists TypeError.
Qed.

Lemma update_attributes_well_typed self r self' :
  well_typed self ->
  update_attributes self = (r, self') ->
  well_typed self'.
Proof.
  intros Hw [(e & _ & Heq) | (blob & _ & _ & Hd)]%update_attributes_snapshot;
    unfold well_typed.
  - by rewrite Heq.
  - by apply (attribute_xml_to_dict_field_ok blob).
Qed.

Lemma subscription_update_well_typed self (_params : string) r self' :
  well_typed self ->
  subscription_update "attributeList" _params self = (r, self') ->
  well_typed self'.
Proof.
  intros Hw. rewrite subscription_update_run.
  destruct (attribute_xml_to_dict _params) as [d|e] eqn:Hd;
    intros [= <- <-]; [|done].
  intros key v. simpl. intros [Hv | [_ Hv]]%lookup_union_Some_raw.
  - by apply (attribute_xml_to_dict_field_ok _params d).
  - by apply Hw.
Qed.

Lemma get_state_well_typed self (force_update : bool) r self' :
  well_typed self ->
  get_state force_update self = (r, self') ->
  well_typed self'.
Proof.
  intros Hw. rewrite get_state_run.
  destruct (force_update || bool_decide (_state self = None)).
  - destruct (update_attributes self) as [[[]|e] self1] eqn:Hu;
      intros [= <- <-]; by eapply update_attributes_well_typed.
  - by intros [= <- <-].
Qed.

(** X19. Every key of the snapshot holds a value of its type:
    [__init__] establishes it, whether it returns or raises, and
    [update_attributes], a push of kind [attributeList], [get_state] and
    the four setters keep it. *)
Theorem snapshot_stays_well_typed self :
  (forall r self', __init__ self = (r, self') -> well_typed self') /\
  (well_typed self ->
   (forall r self', update_attributes self = (r, self') -> well_typed self') /\
   (forall _params r self',
      subscription_update "attributeList" _params self = (r, self') ->
      well_typed self') /\
   (forall force_update r self',
      get_state force_update self = (r, self') -> well_typed self') /\
   (forall state r self', set_state state self = (r, self') -> well_typed self') /\
   (forall m r self', set_fan_mode m self = (r, self') -> well_typed self') /\
   (forall h r self', set_humidity h self = (r, self') -> well_typed self') /\
   (forall m h r self',
      set_fan_mode_and_humidity m h self = (r, self') -> well_typed self')).
Proof.
  split.
  - intros r self'. unfold __init__, seq, set__attributes.
    by apply update_attributes_well_typed.
  - intros Hw. repeat split.
    + intros r self'. by apply update_attributes_well_typed.
    + intros p r self'. by apply subscription_update_well_typed.
    + intros f r self'. by apply get_state_well_typed.
    + intros s r self'. unfold set_state. rewrite set_fan_mode_run.
      by apply update_attributes_well_typed.
    + intros m r self'. rewrite set_fan_mode_run.
      by apply update_attributes_well_typed.
    + intros h r self'. rewrite set_humidity_run.
      by apply update_attributes_well_typed.
    + intros m h r self'. rewrite set_fan_mode_and_humidity_run.
      by apply update_attributes_well_typed.
Qed.

Lemma humidity_name_int (v : Z) :
  names_get DESIRED_HUMIDITY_NAMES (Some (VInt v)) "Unknown" =
    canonical_humidity_name v.
Proof.
  unfold DESIRED_HUMIDITY_NAMES, names_get, ne_int, canonical_humidity_name.
  destruct (Z.eqb_spec v 0) as [->|?]; [done|].
  destruct (Z.eqb_spec v 1) as [->|?]; [done|].
  destruct (Z.eqb_spec v 2) as [->|?]; [done|].
  destruct (Z.eqb_spec v 3) as [->|?]; [done|].
  destruct (Z.eqb_spec v 4) as [->|?]; [done|].
  simpl. destruct v as [|[[[]|[]|]|[[]|[]|]|]|]; done.
Qed.

Lemma water_level_name_int (v : Z) :
  names_get WATER_LEVEL_NAMES (Some (VInt v)) "Unknown" =
    canonical_water_level_name v.
Proof.
  unfold WATER_LEVEL_NAMES, names_get, ne_int, canonical_water_level_name,
    WaterLevel.Empty, WaterLevel.Low, WaterLevel.Good.
  destruct (Z.eqb_spec v 0) as [->|?]; [done|].
  destruct (Z.eqb_spec v 1) as [->|?]; [done|].
  destruct (Z.eqb_spec v 2) as [->|?]; [done|].
  simpl. destruct v as [|[[]|[]|]|]; done.
Qed.

(** X20. On a snapshot whose keys hold values of their types, the
    accessors return [None] or a value of the key's type:
    [desired_humidity] an integer whose label is "45", "50", "55", "60" or
    "100" for 0 to 4 and "Unknown" otherwise, [water_level] an integer
    from 0 to 2 whose label is "Empty", "Low" or "Good" and never
    "Unknown", the two humidity and filter readings floats,
    [filter_expired] a boolean. A missing key reads "Unknown". *)
Theorem accessors_on_well_typed_snapshot self :
  well_typed self ->
  (forall v, fan_mode self = Some v -> exists z, v = VInt z) /\
  (forall v, desired_humidity self = Some v ->
     exists z, v = VInt z /\
       desired_humidity_percent self = canonical_humidity_name z) /\
  (desired_humidity self = None -> desired_humidity_percent self = "Unknown") /\
  (forall v, water_level self = Some v ->
     exists z, v = VInt z /\ 0 <= z <= 2 /\
       water_level_string self = canonical_water_level_name z /\
       water_level_string self <> "Unknown") /\
  (water_level self = None -> water_level_string self = "Unknown") /\
  (forall v, current_humidity_percent self = Some v -> exists x, v = VFloat x) /\
  (forall v, filter_life_percent self = Some v -> exists x, v = VFloat x) /\
  (forall v, filter_expired self = Some v -> exists b, v = VBool b).
Proof.
  intros Hw.
  assert (forall key v, _attributes self !! key = Some v -> field_ok key v)
    as Hf by exact Hw.
  unfold fan_mode, desired_humidity, desired_humidity_percent, water_level,
    water_level_string, current_humidity_percent, filter_life_percent,
    filter_expired, desired_humidity, water_level.
  repeat split.
  - intros v Hv. apply Hf in Hv. unfold field_ok in Hv.
    destruct Hv as [[? _]|[[_ ?]|[[[?|?] _]|[? _]]]]; done.
  - intros v Hv. rewrite Hv. apply Hf in Hv. unfold field_ok in Hv.
    destruct Hv as [[? _]|[[_ [z ->]]|[[[?|?] _]|[? _]]]]; try done.
    exists z. split; [done|]. apply humidity_name_int.
  - by intros ->.
  - intros v Hv. rewrite Hv. apply Hf in Hv. unfold field_ok in Hv.
    destruct Hv as [[_ (z & -> & Hz)]|[[[?|?] _]|[[[?|?] _]|[? _]]]];
      try done.
    exists z. split; [done|]. split; [done|].
    rewrite water_level_name_int. split; [done|].
    assert (z = 0 \/ z = 1 \/ z = 2) as [->|[->| ->]] by lia; done.
  - by intros ->.
  - intros v Hv. apply Hf in Hv. unfold field_ok in Hv.
    destruct Hv as [[? _]|[[[?|?] _]|[[_ ?]|[? _]]]]; done.
  - intros v Hv. apply Hf in Hv. unfold field_ok in Hv.
    destruct Hv as [[? _]|[[[?|?] _]|[[_ ?]|[? _]]]]; done.
  - intros v Hv. apply Hf in Hv. unfold field_ok in Hv.
    destruct Hv as [[? _]|[[[?|?] _]|[[[?|?] _]|[_ ?]]]]; done.
Qed.

(** X21. Every message rewrites the water level: after a refresh or a
    push of kind [attributeList] that returns, [water_level] is the last
    signal of that message, and [Good] when the message has none,
    whatever the snapshot held before. *)
Theorem water_level_follows_last_message self (blob : string)
    (attributes : Element) :
  fromstring (unescape blob) = Some attributes ->
  let level :=
    default WaterLevel.Good (last (omap water_signal (children attributes))) in
  (forall b self',
     subscription_update "attributeList" blob self = (Ok b, self') ->
     water_level self' = Some (VInt level)) /\
  (forall self',
     (GetAttributes (deviceevent self)).1 = Some blob ->
     update_attributes self = (Ok tt, self') ->
     water_level self' = Some (VInt level)).
Proof.
  intros Hp level. unfold water_level. split.
  - intros b self'. rewrite subscription_update_run.
    destruct (attribute_xml_to_dict blob) as [d|e] eqn:Hd; intros [= <- <-].
    simpl. rewrite (attribute_xml_to_dict_parsed _ _ Hp) in Hd.
    apply lookup_union_Some_l. by apply decoded_water_level.
  - intros self' Hb. rewrite update_attributes_run.
    destruct (GetAttributes (deviceevent self)) as [resp dev].
    simpl in Hb. subst resp. simpl.
    destruct (attribute_xml_to_dict blob) as [d|e] eqn:Hd; intros [= <-].
    simpl. rewrite (attribute_xml_to_dict_parsed _ _ Hp) in Hd.
    by apply decoded_water_level.
Qed.

(** X22. A setter does not write its argument into the snapshot: when it
    returns, the snapshot is the decode of what the device answered to
    the refresh that followed the [SetAttributes] call, and when it raises
    the snapshot is the one from before the call. *)
Theorem setters_read_back self :
  let after_setter payload r self' :=
    (exists e, r = Raise e /\ _attributes self' = _attributes self) \/
    (exists blob,
       r = Ok tt /\
       (GetAttributes (SetAttributes payload (deviceevent self))).1 = Some blob /\
       attribute_xml_to_dict blob = Ok (_attributes self')) in
  (forall m r self',
     set_fan_mode m self = (r, self') ->
     after_setter (quote_xml (single_attribute "FanMode" (Py.str m))) r self') /\
  (forall h r self',
     set_humidity h self = (r, self') ->
     after_setter (quote_xml (single_attribute "DesiredHumidity" (Py.str h)))
       r self') /\
  (forall m h r self',
     set_fan_mode_and_humidity m h self = (r, self') ->
     after_setter
       (quote_xml (single_attribute "FanMode" (Py.str m)
                   +:+ single_attribute "DesiredHumidity" (Py.str h)))
       r self').
Proof.
  intros after_setter. unfold after_setter. repeat split.
  - intros m r self'. rewrite set_fan_mode_run.
    apply update_attributes_snapshot.
  - intros h r self'. rewrite set_humidity_run.
    apply update_attributes_snapshot.
  - intros m h r self'. rewrite set_fan_mode_and_humidity_run.
    apply update_attributes_snapshot.
Qed.

(** X23. Pushes stack: after two pushes a key holds what the second delta
    has for it, else what the first has, else what the snapshot held; and
    a push delivered twice leaves the object as the first delivery did. *)
Theorem pushes_stack self (p1 p2 : string) self1 self2
    (d1 d2 : gmap string value) :
  attribute_xml_to_dict p1 = Ok d1 ->
  attribute_xml_to_dict p2 = Ok d2 ->
  subscription_update "attributeList" p1 self = (Ok true, self1) ->
  subscription_update "attributeList" p2 self1 = (Ok true, self2) ->
  (forall key,
     _attributes self2 !! key =
       match d2 !! key with
       | Some v => Some v
       | None =>
           match d1 !! key with
           | Some v => Some v
           | None => _attributes self !! key
           end
       end) /\
  (p1 = p2 -> self2 = self1).
Proof.
  intros H1 H2. rewrite !subscription_update_run, H1, H2.
  intros [= <-] [= <-]. simpl. split.
  - intros key. rewrite !lookup_union.
    by destruct (d2 !! key), (d1 !! key), (_attributes self !! key).
  - intros ->. assert (d2 = d1) as -> by congruence.
    by rewrite map_union_assoc, map_union_idemp.
Qed.

End Snapshot.

(** ** Runs on concrete inputs

    The decoder runs with [simple_parser] and the methods with the
    [scripted] device. *)

#[local] Existing Instance simple_parser.
#[local] Existing Instance scripted.

Lemma humidity_blob_decodes :
  attribute_xml_to_dict humidity_blob = Ok humidity_delta.
Proof. by vm_compute. Qed.

(** C1, counterexample. The snapshot holds [fan_mode] = 3 and the blob
    fetched holds only [CurrentHumidity] = 42.5: after the refresh the
    snapshot has no [fan_mode] any more. *)
Lemma refresh_drops_absent_key :
  exists self',
    attribute_xml_to_dict humidity_blob = Ok humidity_delta /\
    humidity_delta !! "fan_mode" = None /\
    _attributes medium_fan !! "fan_mode" = Some (VInt 3) /\
    update_attributes medium_fan = (Ok tt, self') /\
    _attributes self' !! "fan_mode" = None /\
    _attributes self' !! "current_humidity" = Some (VFloat 42.5).
Proof.
  eexists. repeat split; by vm_compute.
Qed.

Lemma refresh_replaces_push_merges_witness :
  update_attributes medium_fan =
    (Ok tt, mkHumidifier humidity_delta None [] [GetAttributes_call]) /\
  exists self',
    subscription_update "attributeList" humidity_blob medium_fan = (Ok true, self') /\
    _attributes self' !! "current_humidity" = Some (VFloat 42.5) /\
    _attributes self' !! "fan_mode" = Some (VInt 3) /\
    _state self' = Some (VInt 3).
Proof.
  destruct (refresh_replaces_push_merges medium_fan) as [Hrefresh Hpush].
  split.
  - apply (Hrefresh humidity_blob []); [done|by vm_compute].
  - destruct (Hpush humidity_blob humidity_delta) as (self' & Hrun & Hnew & Hold & Hst);
      [by vm_compute|].
    exists self'. split; [done|]. split; [by apply Hnew|].
    assert (_attributes self' !! "fan_mode" = Some (VInt 3)) as Hfm
      by (by rewrite Hold).
    split; [done|]. by rewrite Hst.
Defined.

Lemma water_level_of_fragment_witness :
  exists d,
    attribute_xml_to_dict no_water_blob = Ok d /\
    d !! "water_level" = Some (VInt WaterLevel.Empty).
Proof.
  destruct (water_level_of_fragment no_water_blob
              (Elem "attributes" None [no_water])) as [Hret Hlvl];
    [by vm_compute|].
  destruct Hret as [d Hd].
  { repeat constructor. by exists (Some "NoWater"), "1". }
  exists d. split; [done|].
  destruct (Hlvl d Hd) as (_ & _ & Hempty & _).
  apply (Hempty [] no_water []); [done|done|constructor].
Defined.

Lemma last_water_attribute_wins_witness :
  attribute_xml_to_dict (no_water_blob +:+ water_advise_blob)
    = Ok (<["water_level" := VInt 1]> ∅) /\
  exists before a after,
    [no_water; water_advise] = before ++ a :: after /\
    Forall (fun b => ~ is_attr "NoWater" "1" b /\ ~ is_attr "WaterAdvise" "1" b)
      after /\
    ((is_attr "NoWater" "1" a /\
      (<["water_level" := VInt 1]> ∅ : gmap string value) !! "water_level"
        = Some (VInt WaterLevel.Empty))
     \/ (is_attr "WaterAdvise" "1" a /\
         (<["water_level" := VInt 1]> ∅ : gmap string value) !! "water_level"
           = Some (VInt WaterLevel.Low))).
Proof.
  assert (attribute_xml_to_dict (no_water_blob +:+ water_advise_blob)
            = Ok (<["water_level" := VInt 1]> ∅)) as Hd by (by vm_compute).
  split; [done|].
  destruct (last_water_attribute_wins (no_water_blob +:+ water_advise_blob)
              (Elem "attributes" None [no_water; water_advise])
              (<["water_level" := VInt 1]> ∅)) as [_ Hlast];
    [by vm_compute|done|].
  apply Hlast.
  - by apply Exists_cons_hd.
  - by apply Exists_cons_tl, Exists_cons_hd.
Defined.

(** The same two attributes in the two orders decode to different levels:
    no rule of priority between the names gives both. *)
Lemma water_level_depends_on_order :
  (exists d,
     attribute_xml_to_dict (no_water_blob +:+ water_advise_blob) = Ok d /\
     d !! "water_level" = Some (VInt WaterLevel.Low)) /\
  (exists d,
     attribute_xml_to_dict (water_advise_blob +:+ no_water_blob) = Ok d /\
     d !! "water_level" = Some (VInt WaterLevel.Empty)).
Proof. split; eexists; split; by vm_compute. Qed.

Lemma get_state_reports_fan_mode_witness :
  consistent medium_fan /\
  get_state false medium_fan = (Ok 1, medium_fan) /\
  (forall r self', get_state false medium_fan = (Ok r, self') -> r = 1) /\
  exists self',
    get_state true medium_fan = (Ok 1, self') /\
    rpc_log self' = [GetAttributes_call].
Proof.
  assert (consistent medium_fan) as Hc by done.
  destruct (get_state_reports_fan_mode medium_fan false)
    as (_ & Hcached & Hread).
  destruct (get_state_reports_fan_mode medium_fan true) as (Hforced & _ & _).
  split; [done|]. split; [by rewrite Hcached|]. split.
  - intros r self' Hg.
    destruct (Hread (or_intror Hc) r self' Hg) as (_ & Hon & _).
    rewrite Hcached in Hg by done. injection Hg as _ <-.
    by apply (Hon 3).
  - destruct (Hforced eq_refl) as (r & self' & Hu & Hlog & Hg).
    exists self'. split; [|done].
    rewrite Hg. vm_compute in Hu. by injection Hu as <- <-.
Defined.

(** Setting fan mode 4 on the scripted device: the two calls made, and the
    attribute list sent, which the decoder reads back as the single
    attribute [FanMode] with value "4". *)
Lemma set_fan_mode_4 :
  exists r self',
    set_fan_mode 4 medium_fan = (r, self') /\
    rpc_log self' =
      [SetAttributes_call
         "&lt;attribute&gt;&lt;name&gt;FanMode&lt;/name&gt;&lt;value&gt;4&lt;/value&gt;&lt;/attribute&gt;";
       GetAttributes_call] /\
    fromstring
      (unescape
         "&lt;attribute&gt;&lt;name&gt;FanMode&lt;/name&gt;&lt;value&gt;4&lt;/value&gt;&lt;/attribute&gt;")
    = Some (Elem "attributes" None
              [Elem "attribute" None
                 [Elem "name" (Some "FanMode") []; Elem "value" (Some "4") []]]).
Proof. eexists _, _. repeat split; by vm_compute. Qed.

(** C6, counterexample. A fragment with the readings 30240 and 60480, in
    that order: it contains a [FilterLife] attribute whose value converts
    to 30240, for which the formula gives 50.0, and decodes to 100.0. *)
Lemma filter_life_not_of_every_reading :
  exists attributes d,
    fromstring (unescape (filter_life_blob "30240" +:+ filter_life_blob "60480"))
      = Some attributes /\
    filter_life_attribute "30240" ∈ children attributes /\
    name_value (filter_life_attribute "30240")
      = Some (Some "FilterLife", Some "30240") /\
    Py.float (Some "30240") = Ok 30240%float /\
    Py.round ((30240 / Py.float_of_int 60480) * Py.float_of_int 100)%float 2
      = 50%float /\
    attribute_xml_to_dict (filter_life_blob "30240" +:+ filter_life_blob "60480")
      = Ok d /\
    d !! "filter_life" = Some (VFloat 100%float) /\
    PrimFloat.eqb 100 50 = false.
Proof.
  eexists _, _. split; [by vm_compute|].
  split; [apply list_elem_of_here|].
  repeat split; by vm_compute.
Qed.

Lemma filter_life_of_last_reading_witness :
  exists d,
    attribute_xml_to_dict (filter_life_blob "30240") = Ok d /\
    d !! "filter_life" = Some (VFloat 50%float).
Proof.
  eexists. split; [by vm_compute|].
  eapply (filter_life_of_last_reading (filter_life_blob "30240")
            (Elem "attributes" None [filter_life_attribute "30240"])
            _ [] [] (filter_life_attribute "30240") (Some "30240") 30240%float);
    by vm_compute.
Defined.

(** C7, counterexample. A fragment whose second [CurrentHumidity] has the
    value "abc", which [float] refuses, after a first one at 42.5: the key
    [current_humidity] is in the decoded delta. *)
Lemma failed_conversion_keeps_earlier_value :
  exists attributes d,
    fromstring (unescape (humidity_blob +:+ abc_blob)) = Some attributes /\
    abc_attribute ∈ children attributes /\
    name_value abc_attribute = Some (Some "CurrentHumidity", Some "abc") /\
    Py.float (Some "abc") = Raise ValueError /\
    attribute_xml_to_dict (humidity_blob +:+ abc_blob) = Ok d /\
    d !! "current_humidity" = Some (VFloat 42.5).
Proof.
  eexists _, _. split; [by vm_compute|].
  split; [apply list_elem_of_further, list_elem_of_here|].
  repeat split; by vm_compute.
Qed.

Lemma failed_conversion_is_skipped_witness :
  decode_attribute abc_attribute (<["water_level" := VInt 2]> ∅)
    = Ok (<["water_level" := VInt 2]> ∅) /\
  attribute_xml_to_dict abc_blob = Ok (<["water_level" := VInt 2]> ∅).
Proof.
  destruct (failed_conversion_is_skipped abc_attribute "CurrentHumidity" "abc")
    as (_ & Hstep & _ & Hblob); [done|by exists ValueError|].
  split; [apply Hstep|].
  destruct (Hblob simple_parser abc_blob
              (Elem "attributes" None [abc_attribute]) [] [])
    as [Heq _]; [by vm_compute|done|].
  by rewrite Heq.
Defined.

Lemma fan_mode_labels_witness :
  fan_mode medium_fan = Some (VInt 3) /\ fan_mode_string medium_fan = "Medium".
Proof.
  destruct (fan_mode_labels medium_fan) as [Hint _].
  destruct (Hint 3) as (Hfm & Hname & _); [done|].
  split; [done|]. by rewrite Hname.
Defined.

Lemma unknown_fan_mode_reads_on_witness :
  get_state false unset =
    (Ok 1, mkHumidifier humidity_delta None [] [GetAttributes_call]) /\
  _state (mkHumidifier humidity_delta None ([] : list string)
            [GetAttributes_call]) = None.
Proof.
  destruct (unknown_fan_mode_reads_on unset false) as [Hunknown Hrefresh].
  assert (get_state false unset =
            (Ok 1, mkHumidifier humidity_delta None [] [GetAttributes_call]))
    as Hg.
  { apply (Hrefresh humidity_blob []
             (Elem "attributes" None
                [Elem "attribute" None
                   [Elem "name" (Some "CurrentHumidity") [];
                    Elem "value" (Some "42.5") []]]) humidity_delta);
      try (by vm_compute); [by right|].
    repeat constructor. intros (t & z & Hnv & _). by vm_compute in Hnv. }
  split; [done|].
  by destruct (Hunknown (or_intror eq_refl) 1 _ Hg).
Defined.

Lemma water_override_only_at_1_witness :
  decode_attribute
    (Elem "attribute" None
       [Elem "name" (Some "NoWater") []; Elem "value" (Some " 1") []])
    (<["water_level" := VInt 2]> ∅)
  = Ok (<["water_level" := VInt 2]> ∅).
Proof.
  eapply water_override_only_at_1; [done|by left|done].
Defined.

(** ** Runs of the rest of the module *)

Lemma high_fan_blob_decodes :
  attribute_xml_to_dict high_fan_blob = Ok high_fan_delta /\
  fromstring (unescape high_fan_blob) =
    Some (Elem "attributes" None
            [attribute_element "FanMode" "4";
             attribute_element "DesiredHumidity" "2"]).
Proof. split; by vm_compute. Qed.

Lemma set_both_in_one_round_trip_witness :
  exists self1 self2,
    set_fan_mode 4 fresh = (Ok tt, self1) /\
    set_humidity 2 self1 = (Ok tt, self2) /\
    rpc_log self2 =
      rpc_log fresh
      ++ [SetAttributes_call (quote_xml (single_attribute "FanMode" (Py.str 4)));
          GetAttributes_call;
          SetAttributes_call
            (quote_xml (single_attribute "DesiredHumidity" (Py.str 2)));
          GetAttributes_call].
Proof.
  destruct (set_both_in_one_round_trip fresh 4 2) as (_ & _ & Hseq).
  destruct (set_fan_mode 4 fresh) as [r1 self1] eqn:H1.
  assert (r1 = Ok tt) as -> by (vm_compute in H1; congruence).
  destruct (set_humidity 2 self1) as [r2 self2] eqn:H2.
  pose proof (Hseq self1 r2 self2 eq_refl H2) as Hlog.
  assert (r2 = Ok tt) as ->.
  { vm_compute in H1. injection H1 as <-. vm_compute in H2. congruence. }
  by exists self1, self2.
Defined.

Lemma update_attributes_failure_witness :
  exists self',
    update_attributes mute_device = (Raise TypeError, self') /\
    _attributes self' = _attributes mute_device /\
    _state self' = Some (VInt 3) /\
    rpc_log self' = [GetAttributes_call].
Proof.
  destruct (update_attributes_failure mute_device) as (Hkeep & Hnone & _).
  destruct Hnone as [self' Hu]; [done|].
  exists self'. split; [done|].
  by destruct (Hkeep _ _ Hu) as (? & ? & _ & ?).
Defined.

Lemma subscription_update_dispatch_witness :
  (exists self',
     subscription_update "attributeList" humidity_blob medium_fan
       = (Ok true, self') /\
     rpc_log self' = [] /\ deviceevent self' = [humidity_blob]) /\
  subscription_update "BinaryState" "1" medium_fan = (Ok false, medium_fan).
Proof.
  destruct (subscription_update_dispatch medium_fan humidity_blob)
    as [Hpush _].
  destruct (subscription_update_dispatch medium_fan "1") as [_ Hother].
  split.
  - destruct (subscription_update "attributeList" humidity_blob medium_fan)
      as [r self'] eqn:Hrun.
    destruct (Hpush r self' eq_refl) as (Hlog & Hdev & Hret & _).
    exists self'. split; [|done].
    vm_compute in Hrun. by injection Hrun as <- <-.
  - by rewrite Hother.
Defined.

Lemma state_mirrors_fan_mode_witness :
  exists self1 self2,
    __init__ fresh = (Ok tt, self1) /\
    consistent self1 /\
    set_humidity 2 self1 = (Ok tt, self2) /\
    _state self2 = Some (VInt 4) /\
    consistent self2.
Proof.
  destruct (__init__ fresh) as [r1 self1] eqn:H1.
  assert (r1 = Ok tt) as -> by (vm_compute in H1; by injection H1 as <- _).
  destruct (state_mirrors_fan_mode fresh) as [Hinit _].
  pose proof (Hinit self1 H1) as Hc1.
  destruct (state_mirrors_fan_mode self1) as [_ Hkeep].
  destruct (Hkeep Hc1) as (_ & _ & _ & _ & _ & Hset & _).
  destruct (set_humidity 2 self1) as [r2 self2] eqn:H2.
  pose proof (Hset 2 r2 self2 H2) as Hc2.
  exists self1, self2. split; [done|]. split; [done|].
  vm_compute in H1. injection H1 as <-.
  vm_compute in H2. injection H2 as <- <-. by repeat split.
Defined.


Lemma get_state_settles_witness :
  exists self',
    get_state false fresh = (Ok 1, self') /\
    get_state false self' = (Ok 1, self').
Proof.
  destruct (get_state_settles fresh false) as [Hsettle _].
  eexists. split; [by vm_compute|].
  apply Hsettle; [by right|by vm_compute|by vm_compute].
Defined.

Lemma delta_is_well_formed_witness :
  field_ok "current_humidity" (VFloat 42.5) /\
  dom humidity_delta ⊆
    ({["water_level"; "fan_mode"; "desired_humidity"; "current_humidity";
       "filter_life"; "filter_expired"]} : gset string).
Proof.
  destruct (delta_is_well_formed humidity_blob humidity_delta)
    as [Hf Hdom]; [vm_compute; reflexivity|].
  split; [|exact Hdom]. apply Hf. vm_compute. reflexivity.
Defined.

Lemma decoder_exceptions_witness :
  attribute_xml_to_dict "<attribute>" = Raise ParseError /\
  fromstring (unescape "<attribute>") = None.
Proof.
  assert (attribute_xml_to_dict "<attribute>" = Raise ParseError) as Hr
    by (by vm_compute).
  destruct (decoder_exceptions _ _ Hr) as (_ & [Hp _] & _).
  split; [done|]. by apply Hp.
Defined.

Lemma decoded_typed_fields_witness :
  high_fan_delta !! "fan_mode" = Some (VInt 4) /\
  high_fan_delta !! "desired_humidity" = Some (VInt 2) /\
  high_fan_delta !! "current_humidity" = None /\
  high_fan_delta !! "filter_expired" = None.
Proof.
  destruct high_fan_blob_decodes as [Hd Hp].
  destruct (decoded_typed_fields _ _ _ Hp Hd) as (H1 & H2 & H3 & H4).
  rewrite H1, H2, H3, H4. repeat split; by vm_compute.
Defined.

Lemma unknown_attribute_is_skipped_witness :
  decode_attributes
    ([] ++ Elem "attribute" None [Elem "name" (Some "Brand") []] :: [no_water])
    (<["water_level" := VInt 2]> ∅)
  = decode_attributes ([] ++ [no_water]) (<["water_level" := VInt 2]> ∅).
Proof.
  apply (unknown_attribute_is_skipped _ (Elem "name" (Some "Brand") []) []);
    [done|].
  intros name Hin [= <-]. revert Hin. unfold known_names.
  rewrite !elem_of_cons, elem_of_nil. by intros [?|[?|[?|[?|[?|[?|[?|[]]]]]]]].
Defined.

Lemma truncated_attribute_raises_IndexError_witness :
  attribute_xml_to_dict "<attribute><name>FanMode</name></attribute>"
    = Raise IndexError /\
  attribute_xml_to_dict "<attribute></attribute>" = Raise IndexError.
Proof.
  split.
  - eapply (truncated_attribute_raises_IndexError _
              (Elem "attributes" None
                 [Elem "attribute" None [Elem "name" (Some "FanMode") []]])
              _ [] []); [by vm_compute|done|done|].
    right. eexists _, "FanMode". split; [done|]. split; [done|].
    apply list_elem_of_here.
  - eapply (truncated_attribute_raises_IndexError _
              (Elem "attributes" None [Elem "attribute" None []])
              _ [] []); [by vm_compute|done|done|by left].
Defined.

Lemma missing_value_text_raises_TypeError_witness :
  attribute_xml_to_dict "<attribute><name>FilterLife</name><value/></attribute>"
    = Raise TypeError /\
  attribute_xml_to_dict "<attribute><name>NoWater</name><value/></attribute>"
    = decode_attributes [] (<["water_level" := VInt 2]> ∅).
Proof.
  split.
  - apply (missing_value_text_raises_TypeError _
             (Elem "attributes" None [valueless "FilterLife"])
             (valueless "FilterLife") [] [] (<["water_level" := VInt 2]> ∅)
             "FilterLife"); [vm_compute; reflexivity|done|done|done|].
    unfold converted_names.
    repeat first [apply list_elem_of_here | apply list_elem_of_further].
  - apply (missing_value_text_raises_TypeError _
             (Elem "attributes" None [valueless "NoWater"])
             (valueless "NoWater") [] [] (<["water_level" := VInt 2]> ∅)
             "NoWater"); [vm_compute; reflexivity|done|done|done|by left].
Defined.

Lemma attributes_of_different_names_commute_witness :
  decode_attributes
    ([] ++ attribute_element "DesiredHumidity" "2"
        :: attribute_element "FanMode" "4" :: [])
    (<["water_level" := VInt 2]> ∅)
  = Ok high_fan_delta.
Proof.
  apply (attributes_of_different_names_commute
           (attribute_element "FanMode" "4")
           (attribute_element "DesiredHumidity" "2")
           "FanMode" "DesiredHumidity" (Some "4") (Some "2")).
  - reflexivity.
  - reflexivity.
  - discriminate.
  - intros [Hin _]. revert Hin. rewrite !elem_of_cons, elem_of_nil.
    by intros [?|[?|[]]].
  - vm_compute. reflexivity.
Defined.

Lemma snapshot_stays_well_typed_witness :
  exists self1 self2,
    __init__ unset = (Ok tt, self1) /\
    subscription_update "attributeList" high_fan_blob self1 = (Ok true, self2) /\
    well_typed self2.
Proof.
  destruct (__init__ unset) as [r1 self1] eqn:H1.
  destruct (snapshot_stays_well_typed unset) as [Hinit _].
  pose proof (Hinit r1 self1 H1) as Hw1.
  destruct (snapshot_stays_well_typed self1) as [_ Hkeep].
  destruct (Hkeep Hw1) as (_ & Hpush & _).
  destruct (subscription_update "attributeList" high_fan_blob self1)
    as [r2 self2] eqn:H2.
  pose proof (Hpush _ _ _ H2) as Hw2.
  exists self1, self2.
  vm_compute in H1. injection H1 as <- <-.
  vm_compute in H2. injection H2 as <- <-. by repeat split.
Defined.

Lemma accessors_on_well_typed_snapshot_witness :
  desired_humidity_percent high_fan = "55" /\
  water_level_string high_fan = "Good".
Proof.
  destruct (accessors_on_well_typed_snapshot high_fan)
    as (_ & Hdh & _ & Hwl & _).
  { intros key v. apply (attribute_xml_to_dict_field_ok high_fan_blob).
    apply high_fan_blob_decodes. }
  destruct (Hdh (VInt 2)) as (z & Hz & ->); [vm_compute; reflexivity|].
  injection Hz as <-.
  destruct (Hwl (VInt 2)) as (z & Hz & _ & -> & _); [vm_compute; reflexivity|].
  injection Hz as <-. by split.
Defined.

Lemma water_level_follows_last_message_witness :
  water_level dry = Some (VInt WaterLevel.Empty) /\
  exists self',
    subscription_update "attributeList" humidity_blob dry = (Ok true, self') /\
    water_level self' = Some (VInt WaterLevel.Good).
Proof.
  split; [done|].
  destruct (water_level_follows_last_message dry humidity_blob
              (Elem "attributes" None
                 [attribute_element "CurrentHumidity" "42.5"]))
    as [Hpush _]; [by vm_compute|].
  eexists. split; [by vm_compute|].
  eapply Hpush. by vm_compute.
Defined.

Lemma setters_read_back_witness :
  exists self',
    set_humidity 3 fresh = (Ok tt, self') /\
    attribute_xml_to_dict high_fan_blob = Ok (_attributes self') /\
    desired_humidity self' = Some (VInt 2).
Proof.
  destruct (setters_read_back fresh) as (_ & Hh & _).
  destruct (set_humidity 3 fresh) as [r self'] eqn:Hrun.
  destruct (Hh 3 r self' Hrun) as [(e & -> & _) | (blob & -> & Hb & Hd)].
  - vm_compute in Hrun. by injection Hrun.
  - vm_compute in Hb. injection Hb as <-.
    exists self'. split; [done|]. split; [done|].
    vm_compute in Hrun. by injection Hrun as <-.
Defined.

Lemma pushes_stack_witness :
  exists self1 self2,
    subscription_update "attributeList" humidity_blob medium_fan
      = (Ok true, self1) /\
    subscription_update "attributeList" high_fan_blob self1
      = (Ok true, self2) /\
    _attributes self2 !! "current_humidity" = Some (VFloat 42.5) /\
    _attributes self2 !! "fan_mode" = Some (VInt 4).
Proof.
  destruct (subscription_update "attributeList" humidity_blob medium_fan)
    as [r1 self1] eqn:H1.
  assert (r1 = Ok true) as -> by (vm_compute in H1; congruence).
  destruct (subscription_update "attributeList" high_fan_blob self1)
    as [r2 self2] eqn:H2.
  assert (r2 = Ok true) as ->.
  { vm_compute in H1. injection H1 as <-. vm_compute in H2. congruence. }
  destruct (pushes_stack medium_fan humidity_blob high_fan_blob self1 self2
              humidity_delta high_fan_delta) as [Hkeys _];
    [vm_compute; reflexivity|apply high_fan_blob_decodes|done|done|].
  exists self1, self2. split; [done|]. split; [done|].
  rewrite !Hkeys. split; vm_compute; reflexivity.
Defined.

Lemma decoder_returns_iff_witness :
  exists d, attribute_xml_to_dict humidity_blob = Ok d.
Proof.
  apply decoder_returns_iff.
  exists (Elem "attributes" None [attribute_element "CurrentHumidity" "42.5"]).
  split; [vm_compute; reflexivity|].
  repeat constructor. intros Hnone. discriminate Hnone.
Defined.

Lemma decoder_reads_positions_not_tags_witness :
  attribute_xml_to_dict "<x><y>FanMode</y><z>4</z><w>junk</w></x>" =
    attribute_xml_to_dict (single_attribute "FanMode" "4").
Proof.
  apply (decoder_reads_positions_not_tags _ _
           (Elem "attributes" None
              [Elem "x" None
                 [Elem "y" (Some "FanMode") []; Elem "z" (Some "4") [];
                  Elem "w" (Some "junk") []]])
           (Elem "attributes" None [attribute_element "FanMode" "4"]));
    [vm_compute; reflexivity|vm_compute; reflexivity|].
  repeat constructor. discriminate.
Defined.

Lemma setter_payload_decodes_back_witness :
  attribute_xml_to_dict
    (escape_angles
       (single_attribute "FanMode" (Py.str 4)
        +:+ single_attribute "DesiredHumidity" (Py.str 2)))
  = Ok (<["desired_humidity" := VInt 2]>
          (<["fan_mode" := VInt 4]> (<["water_level" := VInt 2]> ∅))).
Proof.
  apply (setter_payload_decodes_back 4 2
           (Elem "attributes" None
              [attribute_element "FanMode" "4";
               attribute_element "DesiredHumidity" "2"]));
    vm_compute; reflexivity.
Defined.
